(** * awsbill2graphite: hourly AWS billing rows to Graphite lines

  A shallow embedding of [awsbill2graphite.py] and the properties of its
  row classification, metric aggregation and line formatting.

  Conventions of the embedding:
  - a Python 2 [str] is a [string] (a list of bytes);
  - a Python [dict] is a [gmap]; a literal dict is built from its pairs;
  - a call that may raise returns a [result]: [Ok v] or [Raise e];
  - Python's [None] as a possible value is [option];
  - a Python [float] is an IEEE binary64 number, [spec_float] with
    precision 53 and maximal exponent 1024;
  - an [arrow] timestamp is the instant it denotes, in microseconds since
    the Unix epoch. *)

From Stdlib Require Import ZArith String Ascii List Bool Lia SpecFloat DecimalString.
From stdpp Require Import base option list gmap strings fin_maps.

Set Default Proof Using "Type".

Local Open Scope string_scope.
Local Open Scope Z_scope.

(** ** Exceptions and fallible computations *)

Inductive exn : Type :=
| KeyError          (* dict[key] on a missing key *)
| IndexError        (* list[i] out of range *)
| ValueError        (* float() of a non-number, unpacking of the wrong length *)
| TypeError         (* str.join over a None item *)
| ParserError       (* arrow.get() of an unrecognised string *)
| StopIteration.    (* reader.next() on an empty file *)

Inductive result (A : Type) : Type :=
| Ok (a : A)
| Raise (e : exn).
Arguments Ok {A} a.
Arguments Raise {A} e.

Definition rbind {A B : Type} (x : result A) (f : A -> result B) : result B :=
  match x with
  | Ok a => f a
  | Raise e => Raise e
  end.

Notation "'do' x <- e1 ; e2" := (rbind e1 (fun x => e2))
  (at level 10, x name, e1 at level 100, e2 at level 200).

Definition raises {A : Type} (x : result A) : Prop := exists e, x = Raise e.

(** A list comprehension over a fallible function: stops at the first
    exception. *)
Fixpoint map_r {A B : Type} (f : A -> result B) (l : list A) : result (list B) :=
  match l with
  | [] => Ok []
  | x :: l' => do y <- f x; do ys <- map_r f l'; Ok (y :: ys)
  end.

(** ** Python 2 string methods used by the program *)

Module Py.

(** [s.split(sep)] for a one-character separator. *)
Fixpoint split (sep : ascii) (s : string) : list string :=
  match s with
  | EmptyString => [EmptyString]
  | String c s' =>
      if Ascii.eqb c sep then EmptyString :: split sep s'
      else match split sep s' with
           | h :: t => String c h :: t
           | [] => [String c EmptyString]
           end
  end.

(** [s.partition(sep)]: the text before and after the first [sep]. *)
Fixpoint cut (sep : ascii) (s : string) : option (string * string) :=
  match s with
  | EmptyString => None
  | String c s' =>
      if Ascii.eqb c sep then Some (EmptyString, s')
      else match cut sep s' with
           | Some (a, b) => Some (String c a, b)
           | None => None
           end
  end.

(** [s.split(sep, 1)]: at most one split. *)
Definition split1 (sep : ascii) (s : string) : list string :=
  match cut sep s with
  | Some (a, b) => [a; b]
  | None => [s]
  end.

(** [s.startswith(p)]. *)
Definition startswith (s p : string) : bool := String.prefix p s.

(** [sub in s]. *)
Fixpoint contains (sub s : string) : bool :=
  String.prefix sub s ||
  match s with
  | EmptyString => false
  | String _ s' => contains sub s'
  end.

(** [s.replace(a, b)] for one-character [a] and [b]. *)
Fixpoint replace (a b : ascii) (s : string) : string :=
  match s with
  | EmptyString => EmptyString
  | String c s' => String (if Ascii.eqb c a then b else c) (replace a b s')
  end.

Definition is_upper_char (c : ascii) : bool :=
  let n := nat_of_ascii c in (65 <=? n)%nat && (n <=? 90)%nat.
Definition is_lower_char (c : ascii) : bool :=
  let n := nat_of_ascii c in (97 <=? n)%nat && (n <=? 122)%nat.
Definition is_digit_char (c : ascii) : bool :=
  let n := nat_of_ascii c in (48 <=? n)%nat && (n <=? 57)%nat.

Fixpoint any_char (p : ascii -> bool) (s : string) : bool :=
  match s with
  | EmptyString => false
  | String c s' => p c || any_char p s'
  end.

(** [s.isupper()]: no lowercase letter and at least one uppercase one. *)
Definition isupper (s : string) : bool :=
  negb (any_char is_lower_char s) && any_char is_upper_char s.

(** [s[i].isdigit()] once [i] is known to be in range. *)
Definition isdigit_at (i : nat) (s : string) : bool :=
  match String.get i s with
  | Some c => is_digit_char c
  | None => false
  end.

(** [sep.join(pieces)]; an item that is [None] is a [TypeError]. *)
Fixpoint join (sep : string) (pieces : list (option string)) : result string :=
  match pieces with
  | [] => Ok EmptyString
  | None :: _ => Raise TypeError
  | [Some p] => Ok p
  | Some p :: rest => do r <- join sep rest; Ok (p +:+ sep +:+ r)
  end.

(** [l[i]]. *)
Definition index {A : Type} (l : list A) (i : nat) : result A :=
  match l !! i with
  | Some x => Ok x
  | None => Raise IndexError
  end.

(** [d[k]]. *)
Definition getitem {V : Type} (d : gmap string V) (k : string) : result V :=
  match d !! k with
  | Some v => Ok v
  | None => Raise KeyError
  end.

(** [dict(pairs)]: later pairs override earlier ones. *)
Definition dict {V : Type} (pairs : list (string * V)) : gmap string V :=
  foldl (fun d kv => <[kv.1 := kv.2]> d) ∅ pairs.

End Py.

(** ** Constants *)

Definition REGION_NAMES : gmap string string :=
  Py.dict
    [ ("US East (N. Virginia)", "us-east-1");
      ("US West (N. California)", "us-west-1");
      ("US West (Oregon)", "us-west-2");
      ("EU (Ireland)", "eu-west-1");
      ("EU (Frankfurt)", "eu-central-1");
      ("Asia Pacific (Tokyo)", "ap-northeast-1");
      ("Asia Pacific (Seoul)", "ap-northeast-2");
      ("Asia Pacific (Singapore)", "ap-southeast-1");
      ("Asia Pacific (Sydney)", "ap-southeast-2");
      ("South America (Sao Paulo)", "sa-east-1") ].

(** ** Floats and timestamps *)

Abbreviation float := spec_float (only parsing).

Definition fzero : float := S754_zero false.        (* float() = 0.0 *)
Definition fadd (x y : float) : float := SFadd 53 1024 x y.

(** Microseconds since the Unix epoch. *)
Abbreviation Arrow := Z (only parsing).

(** The binary64 number nearest to [n / d], ties to even. *)
Definition nearest_float (neg : bool) (n d : Z) : float :=
  if n =? 0 then S754_zero neg
  else
    let '(q, e, l) := SFdiv_core_binary 53 1024 n 0 d 0 in
    binary_round_aux 53 1024 neg q e l.

(** [timedelta.total_seconds()] for a difference of [us] microseconds:
    the binary64 quotient of the integer by 10^6. *)
Definition total_seconds (us : Z) : float :=
  nearest_float (us <? 0) (Z.abs us) 1000000.

(** [int(x)] for a finite float: the integer part (a difference of two
    timestamps is always finite). *)
Definition int_of_float (x : float) : Z :=
  match x with
  | S754_finite s m e =>
      let a := if 0 <=? e then Z.pos m * 2 ^ e else Z.pos m / 2 ^ (- e) in
      if s then - a else a
  | _ => 0
  end.

(** The float 1e50 and the test [fabs(x) >= 1e50]. *)
Definition float_1e50 : float := nearest_float false (10 ^ 50) 1.

Definition at_least_1e50 (x : float) : bool :=
  match SFcompare (SFabs x) float_1e50 with
  | Some Gt | Some Eq => true
  | _ => false
  end.

(** *** Rendering of numbers *)

Definition newline : string := String (ascii_of_nat 10) EmptyString.

Definition digit_char (d : Z) : ascii := ascii_of_nat (48 + Z.to_nat d).

(** The last [p] decimal digits of [n]. *)
Fixpoint last_digits (p : nat) (n : Z) : string :=
  match p with
  | O => EmptyString
  | S p' => last_digits p' (n / 10) +:+ String (digit_char (n mod 10)) EmptyString
  end.

(** [str(z)] for an integer. *)
Definition str_of_Z (z : Z) : string := NilZero.string_of_int (Z.to_int z).

(** [m * 2^e * 10^prec] rounded to the nearest integer, ties to even. *)
Definition scaled_round (prec : nat) (m : positive) (e : Z) : Z :=
  let num := Z.pos m * 10 ^ Z.of_nat prec in
  if 0 <=? e then num * 2 ^ e
  else
    let den := 2 ^ (- e) in
    let q := num / den in
    match (2 * (num mod den) ?= den) with
    | Lt => q
    | Gt => q + 1
    | Eq => if Z.even q then q else q + 1
    end.

Definition sign_str (s : bool) : string := if s then "-" else "".

(** Presentation type 'f' with [prec] digits after the point. *)
Definition float_repr_f (prec : nat) (x : float) : string :=
  let fraction n := match prec with O => "" | _ => "." +:+ last_digits prec n end in
  match x with
  | S754_nan => "nan"
  | S754_infinity s => sign_str s +:+ "inf"
  | S754_zero s => sign_str s +:+ "0" +:+ fraction 0
  | S754_finite s m e =>
      let n := scaled_round prec m e in
      sign_str s +:+ str_of_Z (n / 10 ^ Z.of_nat prec) +:+ fraction n
  end.

Fixpoint zeros (n : nat) : string :=
  match n with
  | O => EmptyString
  | S n' => String "0" (zeros n')
  end.

(** Fill '0' up to a minimum width: the zeros go between sign and digits. *)
Definition zero_pad (width : nat) (s : string) : string :=
  let fill := zeros (width - String.length s) in
  match s with
  | String "-" body => String "-" (fill +:+ body)
  | _ => fill +:+ s
  end.

(** A string of digits without its trailing zeros. *)
Fixpoint strip_zeros (s : string) : string :=
  match s with
  | EmptyString => EmptyString
  | String c s' =>
      match strip_zeros s' with
      | EmptyString => if Ascii.eqb c "0" then EmptyString else String c EmptyString
      | r => String c r
      end
  end.

(** Presentation type 'g' with [prec] significant digits, for the values
    [format_float] hands to it: of magnitude at least 1e50, which are
    integers of more than [prec] digits and so written in exponent notation,
    one digit before the point and trailing zeros dropped. *)
Definition float_repr_g (prec : nat) (x : float) : string :=
  let p := Nat.max prec 1 in
  match x with
  | S754_finite s m e =>
      let n := Z.pos m * 2 ^ e in
      let d := String.length (str_of_Z n) in
      if (0 <=? e) && (p <? d)%nat then
        let scale := 10 ^ Z.of_nat (d - p) in
        let q := n / scale in
        let q :=
          match (2 * (n mod scale) ?= scale) with
          | Lt => q
          | Gt => q + 1
          | Eq => if Z.even q then q else q + 1
          end in
        let '(q, exponent) :=
          if q =? 10 ^ Z.of_nat p
          then (10 ^ Z.of_nat (p - 1), Z.of_nat d)
          else (q, Z.of_nat d - 1) in
        match last_digits p q with
        | String lead rest =>
            sign_str s
            +:+ String lead (match strip_zeros rest with
                             | EmptyString => EmptyString
                             | fraction => "." +:+ fraction
                             end)
            +:+ "e+" +:+ str_of_Z exponent
        | EmptyString => EmptyString
        end
      else float_repr_f prec x
  | _ => float_repr_f prec x
  end.

(** The format spec [0<width>[.<precision>]f] applied to a float, as
    Python 2.7 does it: without a precision 6 digits are used, and a value
    of magnitude 1e50 or more is written with the type 'g' instead of 'f'. *)
Definition format_float (width : nat) (precision : option nat) (x : float) : string :=
  let prec := default 6%nat precision in
  zero_pad width (if at_least_1e50 x then float_repr_g prec x else float_repr_f prec x).

(** ** MetricFormatter *)

Definition getenv (environ : gmap string string) (name : string) : option string :=
  environ !! name.

Record MetricFormatter : Type := { _initial_pieces : list (option string) }.

(** [MetricFormatter.__init__]. *)
Definition MetricFormatter_init (environ : gmap string string) : MetricFormatter :=
  {| _initial_pieces :=
       if bool_decide (getenv environ "AWSBILL_METRIC_PREFIX" <> Some "")
       then [getenv environ "AWSBILL_METRIC_PREFIX"]
       else [] |}.

(** ** Row *)

Record Row : Type := { content : gmap string string }.

(** [Row.__init__]: [dict(zip(col_names, row_list))]. *)
Definition Row_init (col_names row_list : list string) : Row :=
  {| content := Py.dict (zip col_names row_list) |}.

(** The body of [Row.region] once the location field is read. *)
Definition region_of (location : string) : string :=
  match REGION_NAMES !! location with
  | Some code => code
  | None => "noregion"
  end.

(** [Row.region]. *)
Definition region (r : Row) : result string :=
  do location <- Py.getitem (content r) "product/location";
  Ok (region_of location).

(** The test of [Row.usage_type] for a leading region code such as
    "APN1" or "USW2". *)
Definition looks_like_region_code (seg : string) : bool :=
  (String.length seg =? 4)%nat
  && bool_decide (String.substring 0 2 seg ∈ ["US"; "EU"; "AP"; "SA"])
  && Py.isupper seg
  && Py.isdigit_at 3 seg.

(** The body of [Row.usage_type] once the usage-type field is read; the
    category "unknown" is Python's [None]. *)
Definition usage_type_of (raw : string) : result (option string) :=
  let splut := Py.split "-" raw in
  do seg0 <- Py.index splut 0;
  let splut := if looks_like_region_code seg0 then drop 1 splut else splut in
  do seg <- Py.index splut 0;
  if Py.startswith seg "BoxUsage:" then Ok (Some "ec2-instance") else Ok None.

(** [Row.usage_type]. *)
Definition usage_type (r : Row) : result (option string) :=
  do raw <- Py.getitem (content r) "lineItem/UsageType";
  usage_type_of raw.

(** The body of [Row.instance_type] once the usage-type field is read. *)
Definition instance_type_of (raw : string) : result (option string) :=
  if negb (Py.contains "BoxUsage:" raw) then Ok None
  else
    let splut := Py.split1 ":" raw in
    if (length splut <? 2)%nat then Ok None
    else do it <- Py.index splut 1; Ok (Some (Py.replace "." "-" it)).

(** [Row.instance_type]. *)
Definition instance_type (r : Row) : result (option string) :=
  do raw <- Py.getitem (content r) "lineItem/UsageType";
  instance_type_of raw.

(** [Row.tags]: always the empty dict. *)
Definition tags (r : Row) : gmap string string := ∅.

(** ** Timeseries patterns *)

(** [TimeseriesPattern]: the interface of [match] and [metric_name]. *)
Record TimeseriesPattern : Type := {
  pat_match : Row -> result bool;
  pat_metric_name : Row -> result string
}.

Definition ByInstanceType_match (row : Row) : result bool :=
  do ut <- usage_type row;
  Ok (bool_decide (ut = Some "ec2-instance") && (size (tags row) =? 0)%nat).

Definition ByInstanceType_metric_name (row : Row) : result string :=
  do rg <- region row;
  do ut <- usage_type row;
  do it <- instance_type row;
  Py.join "." [Some rg; ut; it].

Definition ByInstanceType : TimeseriesPattern :=
  {| pat_match := ByInstanceType_match;
     pat_metric_name := ByInstanceType_metric_name |}.

Definition AllCosts : TimeseriesPattern :=
  {| pat_match := fun _ => Ok true;
     pat_metric_name := fun _ => Ok "all-regions.all-types.total-cost" |}.

(** ** MetricLedger *)

Record MetricLedger : Type := {
  _patterns : list TimeseriesPattern;
  _timeseries : gmap string (gmap Z float)
}.

(** [MetricLedger.__init__]. *)
Definition MetricLedger_init (timeseries_patterns : list TimeseriesPattern) : MetricLedger :=
  {| _patterns := timeseries_patterns; _timeseries := ∅ |}.

(** [timeseries[ts_id][timestamp] += a] on a
    [defaultdict(lambda: defaultdict(float))]. *)
Definition add_amount (timeseries : gmap string (gmap Z float))
    (ts_id : string) (timestamp : Arrow) (a : float) : gmap string (gmap Z float) :=
  let ts := default ∅ (timeseries !! ts_id) in
  <[ts_id := <[timestamp := fadd (default fzero (ts !! timestamp)) a]> ts]> timeseries.

(** The (ts_id, timestamp, value) triples [MetricLedger.output] iterates
    over, in the iteration order of the two dicts. *)
Definition points (timeseries : gmap string (gmap Z float)) : list (string * Z * float) :=
  p ← map_to_list timeseries;
  (fun q => (p.1, q.1, q.2)) <$> map_to_list p.2.

(** ** Concrete parsers for worked examples

    The formats found in a billing report: a plain decimal number for the
    cost and [YYYY-MM-DDTHH:MM:SSZ] for the two ends of the time interval.
    On these strings they agree with [float] and [arrow.get]; the program
    and its properties below are stated for any two parsers. *)

Fixpoint digits_value (s : string) (acc : Z) : option Z :=
  match s with
  | EmptyString => Some acc
  | String c s' =>
      if Py.is_digit_char c
      then digits_value s' (10 * acc + (Z.of_nat (nat_of_ascii c) - 48))
      else None
  end.

Definition number (s : string) : option Z :=
  match s with
  | EmptyString => None
  | _ => digits_value s 0
  end.

Definition float_of_decimal (s : string) : option float :=
  let '(neg, body) :=
    match s with
    | String "-" b => (true, b)
    | _ => (false, s)
    end in
  let '(ip, fp) :=
    match Py.cut "." body with
    | Some (a, b) => (a, b)
    | None => (body, EmptyString)
    end in
  match number ip, digits_value fp 0 with
  | Some i, Some f =>
      let d := 10 ^ Z.of_nat (String.length fp) in
      Some (nearest_float neg (i * d + f) d)
  | _, _ => None
  end.

(** Days from 1970-01-01 to the given civil date. *)
Definition days_from_civil (y m d : Z) : Z :=
  let y' := if m <=? 2 then y - 1 else y in
  let era := y' / 400 in
  let yoe := y' - era * 400 in
  let doy := (153 * (if 2 <? m then m - 3 else m + 9) + 2) / 5 + d - 1 in
  let doe := yoe * 365 + yoe / 4 - yoe / 100 + doy in
  era * 146097 + doe - 719468.

Definition arrow_get_iso (s : string) : option Arrow :=
  let field i n := number (String.substring i n s) in
  let lit i c := bool_decide (String.get i s = Some c) in
  if (String.length s =? 20)%nat && lit 4%nat "-"%char && lit 7%nat "-"%char
     && lit 10%nat "T"%char && lit 13%nat ":"%char && lit 16%nat ":"%char
     && lit 19%nat "Z"%char
  then
    match field 0%nat 4%nat, field 5%nat 2%nat, field 8%nat 2%nat,
          field 11%nat 2%nat, field 14%nat 2%nat, field 17%nat 2%nat with
    | Some y, Some mo, Some d, Some h, Some mi, Some sec =>
        if (1 <=? mo) && (mo <=? 12) && (1 <=? d) && (d <=? 31)
           && (h <? 24) && (mi <? 60) && (sec <? 60)
        then Some ((((days_from_civil y mo d * 24 + h) * 60 + mi) * 60 + sec) * 1000000)
        else None
    | _, _, _, _, _, _ => None
    end
  else None.

(** As [arrow_get_iso], and also [YYYY-MM-DDTHH:MM:SS.ffffffZ]. *)
Definition arrow_get_fraction (s : string) : option Arrow :=
  if (String.length s =? 27)%nat
     && bool_decide (String.get 19 s = Some "."%char)
     && bool_decide (String.get 26 s = Some "Z"%char)
  then
    match arrow_get_iso (String.substring 0 19 s +:+ "Z"),
          number (String.substring 20 6 s) with
    | Some t, Some us => Some (t + us)
    | _, _ => None
    end
  else arrow_get_iso s.

(** What [strftime('%s')] gives under Python 2 (on a platform whose C
    library knows the directive) for a timestamp written in UTC, in a
    process whose local time zone is UTC: the epoch second, and ValueError
    before the year 1900, whatever the metric name. *)
Definition strftime_utc (ts_id : string) (t : Arrow) : result string :=
  if t <? -2208988800 * 1000000 then Raise ValueError
  else Ok (str_of_Z (t / 1000000)).

(** The codes [Row.region] can return. *)
Definition region_codes : list string :=
  [ "us-east-1"; "us-west-1"; "us-west-2"; "eu-west-1"; "eu-central-1";
    "ap-northeast-1"; "ap-northeast-2"; "ap-southeast-1"; "ap-southeast-2";
    "sa-east-1"; "noregion" ].

(** The metric name after the configured prefix. *)
Definition prefixed (prefix ts_id : string) : string :=
  if decide (prefix = EmptyString) then ts_id else prefix +:+ "." +:+ ts_id.

(** The line of a point, given the prefix and the text [strftime] returned
    for its timestamp. *)
Definition line_text (prefix : string) (p : string * Z * float) (stamp : string) : string :=
  prefixed prefix p.1.1 +:+ " " +:+ format_float 4 None p.2 +:+ " " +:+ stamp +:+ newline.

(** Example data: the header of a billing report and some of its rows. *)
Definition example_header : list string :=
  [ "identity/TimeInterval"; "lineItem/LineItemType"; "lineItem/UsageType";
    "lineItem/BlendedCost"; "product/location" ].

Definition example_hour : string := "2016-01-01T00:00:00Z/2016-01-01T01:00:00Z".
Definition example_end : Arrow := 1451610000000000.

Definition example_ec2_row : list string :=
  [ example_hour; "Usage"; "USW2-BoxUsage:c3.2xlarge"; "0.850000"; "US West (Oregon)" ].

Definition example_eu_row : list string :=
  [ example_hour; "Usage"; "EU-BoxUsage:m1.small"; "0.850000"; "EU (Ireland)" ].

Definition example_tax_row : list string :=
  [ "not a time interval"; "Tax"; "USW2-BoxUsage:c3.2xlarge"; "n/a"; "" ].

Definition example_two_hour_row : list string :=
  [ "2016-01-01T00:00:00Z/2016-01-01T02:00:00Z"; "Usage";
    "USW2-BoxUsage:c3.2xlarge"; "n/a"; "" ].

(** A "Usage" row of 3600.5 seconds, and an hourly one that ends in 1899. *)
Definition example_half_second_row : list string :=
  [ "2016-01-01T00:00:00Z/2016-01-01T01:00:00.500000Z"; "Usage";
    "USW2-BoxUsage:c3.2xlarge"; "0.850000"; "US West (Oregon)" ].

Definition example_1899_row : list string :=
  [ "1899-12-31T22:00:00Z/1899-12-31T23:00:00Z"; "Usage";
    "EU-BoxUsage:m1.small"; "0.850000"; "EU (Ireland)" ].
Definition example_1899_end : Arrow := -2208992400000000.

Definition example_two_rows : list Row :=
  [ Row_init example_header
      [ example_hour; "Usage"; "USW2-BoxUsage:c3.2xlarge"; "1.2500"; "US West (Oregon)" ];
    Row_init example_header
      [ example_hour; "Usage"; "USW2-BoxUsage:c3.2xlarge"; "0.7500"; "US West (Oregon)" ] ].

Definition float_0_85 : float := S754_finite false 7656119366529843 (-53).
Definition float_2_0 : float := S754_finite false 4503599627370496 (-51).
Definition float_1_25 : float := S754_finite false 5629499534213120 (-52).
Definition float_0_75 : float := S754_finite false 6755399441055744 (-53).

(** ** The aggregation table *)

(** The accumulator of a (metric name, timestamp) pair, if there is one. *)
Definition accumulator (timeseries : gmap string (gmap Z float))
    (ts_id : string) (timestamp : Arrow) : option float :=
  timeseries !! ts_id ≫= fun ts => ts !! timestamp.

(** The Python sum of a list of floats: additions from 0.0, left to right. *)
Definition fsum (l : list float) : float := foldl fadd fzero l.

(** One contribution to the table: metric name, timestamp, amount. *)
Definition add_entry (timeseries : gmap string (gmap Z float))
    (e : string * Z * float) : gmap string (gmap Z float) :=
  add_amount timeseries e.1.1 e.1.2 e.2.

(** The amounts contributed to one (metric name, timestamp) pair, in the
    order of processing. *)
Definition contributions (es : list (string * Z * float))
    (ts_id : string) (timestamp : Arrow) : list float :=
  (filter (fun e => e.1 = (ts_id, timestamp)) es).*2.

(** ** Input and output selection *)

(** The exceptions of the set-up code that [exn] does not list. *)
Inductive os_exn : Type :=
| AttributeError        (* a method called on None *)
| NotImplementedError   (* a scheme the program does not support yet *)
| IOError.              (* open() of a path that cannot be read *)

Inductive exception : Type :=
| ProgramError (e : exn)
| SetupError (e : os_exn).

Inductive outcome (A : Type) : Type :=
| Returns (a : A)
| Throws (e : exception).
Arguments Returns {A} a.
Arguments Throws {A} e.

(** [s[n:]]. *)
Fixpoint str_from (n : nat) (s : string) : string :=
  match n, s with
  | O, _ => s
  | S n', String _ s' => str_from n' s'
  | S _, EmptyString => EmptyString
  end.

(** [open_csv]; [files] gives the rows of the csv file at a path, when the
    path can be opened. *)
Definition open_csv (environ : gmap string string)
    (files : string -> option (list (list string))) : outcome (list (list string)) :=
  match getenv environ "AWSBILL_REPORT_PATH" with
  | None => Throws (SetupError AttributeError)
  | Some report_path =>
      if Py.startswith report_path "file://" then
        let csv_path := str_from (String.length "file://" - 1) report_path in
        match files csv_path with
        | Some rows => Returns rows
        | None => Throws (SetupError IOError)
        end
      else if Py.startswith report_path "s3://" then
        Throws (SetupError NotImplementedError)
      else Throws (ProgramError ValueError)
  end.

(** The file-like objects [open_output] can return. *)
Inductive output_file : Type := sys_stdout.

(** [open_output]. *)
Definition open_output (environ : gmap string string) : outcome output_file :=
  match getenv environ "AWSBILL_GRAPHITE_URL" with
  | None => Throws (SetupError AttributeError)
  | Some output_url =>
      if String.eqb output_url "stdout" then Returns sys_stdout
      else if Py.startswith output_url "http://" || Py.startswith output_url "https://"
      then Throws (SetupError NotImplementedError)
      else Throws (ProgramError ValueError)
  end.

(** A loop of [write] calls: the lines written before the first exception,
    and that exception if there is one. *)
Fixpoint write_each {A : Type} (f : A -> result string) (l : list A)
    : list string * option exn :=
  match l with
  | [] => ([], None)
  | x :: l' =>
      match f x with
      | Raise e => ([], Some e)
      | Ok line => let '(written, e) := write_each f l' in (line :: written, e)
      end
  end.

(** What the process prints on standard output. *)
Inductive printed : Type :=
| MetricLine (line : string)
| ErrorReport (e : exception).     (* print("error: {0}".format(repr(e))) *)

(** The number of occurrences of a character. *)
Fixpoint count_char (c : ascii) (s : string) : nat :=
  match s with
  | EmptyString => O
  | String c' s' => ((if Ascii.eqb c' c then 1 else 0) + count_char c s')%nat
  end.

(** Example data: an environment and the one file it points to. *)
Definition example_environ : gmap string string :=
  {[ "AWSBILL_REPORT_PATH" := "file:///reports/latest.csv";
     "AWSBILL_GRAPHITE_URL" := "stdout";
     "AWSBILL_METRIC_PREFIX" := "aws" ]}.

Definition example_files (path : string) : option (list (list string)) :=
  if String.eqb path "//reports/latest.csv"
  then Some [example_header; example_ec2_row; example_tax_row]
  else None.

Definition example_short_row : list string := [ example_hour ].

(** Example data: a second file, with a row that ends in 1899, and the
    table its records build. *)
Definition example_old_environ : gmap string string :=
  <[ "AWSBILL_REPORT_PATH" := "file:///reports/old.csv" ]> example_environ.

Definition example_old_files (path : string) : option (list (list string)) :=
  if String.eqb path "//reports/old.csv"
  then Some [example_header; example_ec2_row; example_1899_row]
  else None.

Definition example_old_ledger : MetricLedger :=
  {| _patterns := [ByInstanceType; AllCosts];
     _timeseries :=
       foldl add_entry ∅
         [ ("us-west-2.ec2-instance.c3-2xlarge", example_end, float_0_85);
           ("all-regions.all-types.total-cost", example_end, float_0_85);
           ("all-regions.all-types.total-cost", example_1899_end, float_0_85) ] |}.

Section Program.

(** What the program takes from outside: Python's built-in [float(s)],
    [arrow.get(s)] and [timestamp.strftime('%s')]. For the two parsers
    [None] stands for the exception each raises on a string it does not
    accept. [strftime_s ts_id t] is what [strftime('%s')] does on the
    timestamp object the table holds for the metric name [ts_id] at the
    instant [t], the object of the first record that contributed to the
    pair. The text depends on the platform, on the local time zone of the
    process and on the UTC offset the timestamp was written with (two
    objects of one instant can differ in it), and Python 2 raises
    ValueError for a year before 1900: nothing is assumed about it. *)
Variable float_of_str : string -> option float.
Variable arrow_get : string -> option Arrow.
Variable strftime_s : string -> Arrow -> result string.

Definition py_float (s : string) : result float :=
  match float_of_str s with
  | Some x => Ok x
  | None => Raise ValueError
  end.

Definition arrow_get_r (s : string) : result Arrow :=
  match arrow_get s with
  | Some t => Ok t
  | None => Raise ParserError
  end.

(** [MetricFormatter.format]:
    ["{0} {1:04f} {2}\n".format(metric_name, value, timestamp.strftime('%s'))];
    the join comes first, then the call of [strftime]. *)
Definition MetricFormatter_format (f : MetricFormatter)
    (ts_id : string) (timestamp : Arrow) (value : float) : result string :=
  let pieces := (_initial_pieces f ++ [Some ts_id])%list in
  do metric_name <- Py.join "." pieces;
  do stamp <- strftime_s ts_id timestamp;
  Ok (metric_name +:+ " " +:+ format_float 4 None value +:+ " "
      +:+ stamp +:+ newline).

(** [MetricLedger.output]: the lines written to the output file. *)
Definition MetricLedger_output (environ : gmap string string) (l : MetricLedger)
    : result (list string) :=
  let formatter := MetricFormatter_init environ in
  map_r (fun p => MetricFormatter_format formatter p.1.1 p.1.2 p.2)
        (points (_timeseries l)).

(** The point is written as the line: [strftime] returns a text for the
    timestamp of the point and the line carries that text. *)
Definition written_as (prefix : string) (p : string * Z * float) (line : string) : Prop :=
  exists stamp, strftime_s p.1.1 p.1.2 = Ok stamp /\ line = line_text prefix p stamp.

(** [MetricLedger.output] as the writes it performs one after the other. *)
Definition MetricLedger_output_writes (environ : gmap string string) (l : MetricLedger)
    : list string * option exn :=
  let formatter := MetricFormatter_init environ in
  write_each (fun p => MetricFormatter_format formatter p.1.1 p.1.2 p.2)
             (points (_timeseries l)).

(** [Row.interval]: [int((end - start).total_seconds())], the integer
    part of the difference in seconds as a float. *)
Definition interval (r : Row) : result Z :=
  do field <- Py.getitem (content r) "identity/TimeInterval";
  do parsed <- map_r arrow_get_r (Py.split1 "/" field);
  match parsed with
  | [start; end_] => Ok (int_of_float (total_seconds (end_ - start)))
  | _ => Raise ValueError
  end.

(** [Row.end_time]. *)
Definition end_time (r : Row) : result Arrow :=
  do field <- Py.getitem (content r) "identity/TimeInterval";
  do e <- Py.index (Py.split1 "/" field) 1;
  arrow_get_r e.

(** [Row.amount]. *)
Definition amount (r : Row) : result float :=
  do cost <- Py.getitem (content r) "lineItem/BlendedCost";
  py_float cost.

(** The loop of [MetricLedger.process] over the patterns. *)
Fixpoint process_patterns (pats : list TimeseriesPattern) (row : Row)
    (timeseries : gmap string (gmap Z float)) : result (gmap string (gmap Z float)) :=
  match pats with
  | [] => Ok timeseries
  | pat :: pats' =>
      do m <- pat_match pat row;
      if (m : bool) then
        do ts_id <- pat_metric_name pat row;
        do timestamp <- end_time row;
        do a <- amount row;
        process_patterns pats' row (add_amount timeseries ts_id timestamp a)
      else process_patterns pats' row timeseries
  end.

(** [MetricLedger.process]. *)
Definition MetricLedger_process (l : MetricLedger) (row : Row) : result MetricLedger :=
  do timeseries <- process_patterns (_patterns l) row (_timeseries l);
  Ok {| _patterns := _patterns l; _timeseries := timeseries |}.

(** The loop of [generate_metrics] over the data rows. *)
Fixpoint generate_metrics_loop (col_names : list string) (rows : list (list string))
    (ledger : MetricLedger) : result MetricLedger :=
  match rows with
  | [] => Ok ledger
  | row_list :: rows' =>
      let row := Row_init col_names row_list in
      do lit <- Py.getitem (content row) "lineItem/LineItemType";
      if negb (String.eqb lit "Usage") then generate_metrics_loop col_names rows' ledger
      else
        do i <- interval row;
        if negb (i =? 3600) then generate_metrics_loop col_names rows' ledger
        else
          do ledger' <- MetricLedger_process ledger row;
          generate_metrics_loop col_names rows' ledger'
  end.

(** The ledger [generate_metrics] has built when the input is exhausted;
    the csv file is given as its list of parsed rows, header first. *)
Definition generate_ledger (csv_file : list (list string)) : result MetricLedger :=
  match csv_file with
  | [] => Raise StopIteration
  | col_names :: rows =>
      generate_metrics_loop col_names rows (MetricLedger_init [ByInstanceType; AllCosts])
  end.

(** [generate_metrics]: the lines written to the output file. *)
Definition generate_metrics (environ : gmap string string)
    (csv_file : list (list string)) : result (list string) :=
  do ledger <- generate_ledger csv_file;
  MetricLedger_output environ ledger.

(** [MetricLedger.process] called on each record of a sequence in turn. *)
Fixpoint process_all (l : MetricLedger) (rows : list Row) : result MetricLedger :=
  match rows with
  | [] => Ok l
  | row :: rows' => do l' <- MetricLedger_process l row; process_all l' rows'
  end.

(** The contributions of one record as the specification words them: for
    every rule of the rule set that matches, the record's amount goes to
    the pair of the rule's metric name and the record's end time. *)
Fixpoint entries (pats : list TimeseriesPattern) (row : Row)
    : result (list (string * Z * float)) :=
  match pats with
  | [] => Ok []
  | pat :: pats' =>
      do m <- pat_match pat row;
      if (m : bool) then
        do ts_id <- pat_metric_name pat row;
        do timestamp <- end_time row;
        do a <- amount row;
        do es <- entries pats' row;
        Ok ((ts_id, timestamp, a) :: es)
      else entries pats' row
  end.

(** The contributions of a sequence of records, in the order of processing. *)
Definition all_entries (pats : list TimeseriesPattern) (rows : list Row)
    : result (list (string * Z * float)) :=
  do ess <- map_r (entries pats) rows;
  Ok (concat ess).

(** The filter of [generate_metrics]: the rows it passes over. *)
Definition skipped (col_names row_list : list string) : Prop :=
  exists lit,
    content (Row_init col_names row_list) !! "lineItem/LineItemType" = Some lit
    /\ (lit <> "Usage"
        \/ exists i, interval (Row_init col_names row_list) = Ok i /\ i <> 3600).

(** [generate_metrics] as the writes it performs. *)
Definition generate_metrics_writes (environ : gmap string string)
    (csv_file : list (list string)) : list string * option exn :=
  match generate_ledger csv_file with
  | Raise e => ([], Some e)
  | Ok ledger => MetricLedger_output_writes environ ledger
  end.

(** The script body: what is printed and the exit status. *)
Definition main (environ : gmap string string)
    (files : string -> option (list (list string))) : list printed * Z :=
  match open_csv environ files with
  | Throws e => ([ErrorReport e], 1)
  | Returns csv_file =>
      match open_output environ with
      | Throws e => ([ErrorReport e], 1)
      | Returns sys_stdout =>
          match generate_metrics_writes environ csv_file with
          | (written, None) => (MetricLine <$> written, 0)
          | (written, Some e) =>
              ((MetricLine <$> written) ++ [ErrorReport (ProgramError e)], 1)%list
          end
      end
  end.

(** The rows [generate_metrics] hands to the ledger. *)
Definition kept (row : Row) : bool :=
  match Py.getitem (content row) "lineItem/LineItemType", interval row with
  | Ok lit, Ok i => String.eqb lit "Usage" && (i =? 3600)
  | _, _ => false
  end.

(** A row the filter of [generate_metrics] can read: it has a line-item
    type, and a time interval that parses when the type is "Usage". *)
Definition readable (row : Row) : Prop :=
  exists lit,
    content row !! "lineItem/LineItemType" = Some lit
    /\ (lit = "Usage" -> exists i, interval row = Ok i).

(** The amount of a row when its end time is [t]. *)
Definition amount_at (t : Arrow) (row : Row) : option float :=
  match end_time row, amount row with
  | Ok t', Ok a => if decide (t' = t) then Some a else None
  | _, _ => None
  end.

(** * Properties *)

(** ** Strings *)

Lemma split_nonempty sep s : Py.split sep s <> [].
Proof.
  destruct s as [|c s]; simpl; [discriminate|].
  destruct (Ascii.eqb c sep); [discriminate|].
  destruct (Py.split sep s); discriminate.
Qed.

Lemma prefix_nil s : String.prefix EmptyString s = true.
Proof. by destruct s. Qed.

Lemma prefix_decompose p s : String.prefix p s = true -> exists rest, s = p +:+ rest.
Proof.
  revert s. induction p as [|c p IH]; intros s H; [by exists s|].
  destruct s as [|c' s]; cbn [String.prefix] in H; [discriminate|].
  destruct (Ascii.ascii_dec c c') as [<-|]; [|discriminate].
  destruct (IH _ H) as [rest ->]. by exists rest.
Qed.

Lemma prefix_app p a b : String.prefix p a = true -> String.prefix p (a +:+ b) = true.
Proof.
  revert a. induction p as [|c p IH]; intros a H; [apply prefix_nil|].
  destruct a as [|c' a]; [discriminate|].
  change (String c' a +:+ b) with (String c' (a +:+ b)).
  cbn [String.prefix] in *.
  destruct (Ascii.ascii_dec c c'); [auto | discriminate].
Qed.

Lemma split_head_prefix sep s h t :
  Py.split sep s = h :: t -> exists rest, s = h +:+ rest.
Proof.
  revert h t. induction s as [|c s IH]; simpl; intros h t H.
  - injection H as <- <-. by exists EmptyString.
  - destruct (Ascii.eqb c sep).
    + injection H as <- <-. by eexists.
    + destruct (Py.split sep s) as [|h' t'] eqn:E.
      * injection H as <- <-. by apply split_nonempty in E.
      * injection H as <- <-. destruct (IH _ _ eq_refl) as [rest ->].
        by exists rest.
Qed.

Lemma split_singleton sep s h : Py.split sep s = [h] -> s = h.
Proof.
  revert h. induction s as [|c s IH]; cbn [Py.split]; intros h H.
  - congruence.
  - destruct (Ascii.eqb c sep).
    + injection H as _ H. by apply split_nonempty in H.
    + destruct (Py.split sep s) as [|h' t] eqn:E; [by apply split_nonempty in E|].
      injection H as <- ->. by rewrite (IH h').
Qed.

Lemma prefix_empty_r p : String.prefix p EmptyString = true -> p = EmptyString.
Proof. by destruct p. Qed.

(** A prefix of a segment of [s.split(sep)] occurs in [s]. *)
Lemma split_segment_contains sep p s seg :
  seg ∈ Py.split sep s -> String.prefix p seg = true -> Py.contains p s = true.
Proof.
  revert seg. induction s as [|c s IH]; intros seg Hin Hp.
  - simpl in Hin. apply list_elem_of_singleton in Hin as ->.
    apply prefix_empty_r in Hp as ->. reflexivity.
  - cbn [Py.split] in Hin. cbn [Py.contains]. apply orb_true_iff.
    destruct (Ascii.eqb c sep).
    + apply elem_of_cons in Hin as [-> | Hin].
      * apply prefix_empty_r in Hp as ->. by left.
      * right. eauto.
    + destruct (Py.split sep s) as [|h t] eqn:E; [by apply split_nonempty in E|].
      apply elem_of_cons in Hin as [-> | Hin].
      * left. destruct (split_head_prefix _ _ _ _ E) as [rest ->].
        change (String c (h +:+ rest)) with (String c h +:+ rest).
        by apply prefix_app.
      * right. apply (IH seg); [|done]. by right.
Qed.

Lemma cut_of_prefix s :
  String.prefix "BoxUsage:" s = true -> is_Some (Py.cut ":" s).
Proof.
  intros [rest ->]%prefix_decompose.
  simpl. destruct (Py.cut ":" rest) as [[]|]; eauto.
Qed.

Lemma cut_of_contains s :
  Py.contains "BoxUsage:" s = true -> is_Some (Py.cut ":" s).
Proof.
  induction s as [|c s IH]; cbn [Py.contains]; intros H.
  - discriminate.
  - apply orb_true_iff in H as [H | H]; [by apply cut_of_prefix|].
    cbn [Py.cut]. destruct (Ascii.eqb c ":"); [eauto|].
    destruct (IH H) as [[a b] ->]. eauto.
Qed.

Lemma cut_app_suffix p :
  Py.cut ":" p = None ->
  Py.cut ":" (p +:+ "BoxUsage:") = Some (p +:+ "BoxUsage", EmptyString).
Proof.
  induction p as [|c p IH]; intros H; [reflexivity|].
  change (String c p +:+ "BoxUsage:") with (String c (p +:+ "BoxUsage:")).
  change (String c p +:+ "BoxUsage") with (String c (p +:+ "BoxUsage")).
  cbn [Py.cut] in *. destruct (Ascii.eqb c ":"); [discriminate|].
  destruct (Py.cut ":" p) as [[]|]; [discriminate|]. by rewrite IH.
Qed.

Lemma replace_removes a b s : a <> b -> Py.any_char (Ascii.eqb a) (Py.replace a b s) = false.
Proof.
  intros Hab. induction s as [|c s IH]; [done|].
  cbn [Py.replace Py.any_char]. rewrite IH, orb_false_r.
  destruct (Ascii.eqb c a) eqn:E; apply Ascii.eqb_neq; [done|].
  apply Ascii.eqb_neq in E. congruence.
Qed.


(** ** Rows *)

Lemma dict_lookup_notin {V} (l : list (string * V)) (m : gmap string V) k :
  k ∉ l.*1 -> foldl (fun d kv => <[kv.1 := kv.2]> d) m l !! k = m !! k.
Proof.
  revert m. induction l as [|[k' v] l IH]; intros m Hk; [done|].
  cbn in Hk. apply not_elem_of_cons in Hk as [Hne Hk].
  cbn [foldl]. rewrite IH by done. by apply lookup_insert_ne.
Qed.

Lemma zip_keys_subset {A B} (ks : list A) (vs : list B) k :
  k ∈ (zip ks vs).*1 -> k ∈ ks.
Proof.
  revert vs. induction ks as [|k' ks IH]; intros [|v vs] H; cbn in H;
    try by apply elem_of_nil in H.
  apply elem_of_cons in H as [-> | H]; [by left | right; eauto].
Qed.

Lemma dict_zip_lookup (cols vals : list string) (m : gmap string string) i k :
  NoDup cols -> cols !! i = Some k ->
  foldl (fun d kv => <[kv.1 := kv.2]> d) m (zip cols vals) !! k
  = match vals !! i with Some v => Some v | None => m !! k end.
Proof.
  intros Hnd. revert i vals m.
  induction Hnd as [|c cols Hc Hnd IH]; intros i vals m Hi; [done|].
  destruct vals as [|v vals]; [by destruct i|].
  cbn [zip zip_with foldl]. destruct i as [|i]; cbn in Hi |- *.
  - injection Hi as ->. rewrite dict_lookup_notin.
    + apply lookup_insert_eq.
    + intros H%zip_keys_subset. done.
  - rewrite (IH i) by done. destruct (vals !! i); [done|].
    apply lookup_insert_ne. intros ->. apply Hc.
    by apply list_elem_of_lookup_2 in Hi.
Qed.

Lemma getitem_Some {V} (d : gmap string V) k v : d !! k = Some v -> Py.getitem d k = Ok v.
Proof. unfold Py.getitem. by intros ->. Qed.

Lemma getitem_None {V} (d : gmap string V) k : d !! k = None -> Py.getitem d k = Raise KeyError.
Proof. unfold Py.getitem. by intros ->. Qed.

(** ** Region *)

Lemma REGION_NAMES_unrecognized loc :
  loc ∉ [ "US East (N. Virginia)"; "US West (N. California)"; "US West (Oregon)";
          "EU (Ireland)"; "EU (Frankfurt)"; "Asia Pacific (Tokyo)";
          "Asia Pacific (Seoul)"; "Asia Pacific (Singapore)";
          "Asia Pacific (Sydney)"; "South America (Sao Paulo)" ] ->
  REGION_NAMES !! loc = None.
Proof.
  intros H. rewrite !not_elem_of_cons in H. destruct_and!.
  unfold REGION_NAMES, Py.dict. cbn [foldl fst snd].
  repeat (rewrite lookup_insert_ne by done). apply lookup_empty.
Qed.

Ltac in_region_codes :=
  unfold region_codes;
  repeat first [apply list_elem_of_here | apply list_elem_of_further].

Lemma region_of_codes loc : region_of loc ∈ region_codes.
Proof.
  unfold region_of, REGION_NAMES, Py.dict. cbn [foldl fst snd].
  repeat (rewrite lookup_insert; case_decide; [in_region_codes|]).
  rewrite lookup_empty. in_region_codes.
Qed.

(** ** Usage-type classification *)

Lemma instance_type_of_eq raw :
  instance_type_of raw =
    if Py.contains "BoxUsage:" raw then
      match Py.cut ":" raw with
      | Some (_, b) => Ok (Some (Py.replace "." "-" b))
      | None => Ok None
      end
    else Ok None.
Proof.
  unfold instance_type_of, Py.split1.
  destruct (Py.contains "BoxUsage:" raw); [|done].
  by destruct (Py.cut ":" raw) as [[a b]|].
Qed.

(** What [usage_type] does on every raw string: it fails on a string that
    is a region code and nothing else, and classifies every other one. *)
Lemma usage_type_of_cases raw :
  (looks_like_region_code raw = true /\ Py.split "-" raw = [raw]
   /\ usage_type_of raw = Raise IndexError)
  \/ usage_type_of raw = Ok (Some "ec2-instance")
  \/ usage_type_of raw = Ok None.
Proof.
  unfold usage_type_of.
  destruct (Py.split "-" raw) as [|seg0 rest] eqn:E; [by apply split_nonempty in E|].
  cbn [Py.index lookup list_lookup rbind].
  destruct (looks_like_region_code seg0) eqn:Hrc.
  - destruct rest as [|seg rest]; cbn.
    + left. by apply split_singleton in E as ->.
    + right. destruct (Py.startswith seg "BoxUsage:"); auto.
  - right. cbn. destruct (Py.startswith seg0 "BoxUsage:"); auto.
Qed.

Lemma usage_type_of_ec2_contains raw :
  usage_type_of raw = Ok (Some "ec2-instance") -> Py.contains "BoxUsage:" raw = true.
Proof.
  unfold usage_type_of.
  destruct (Py.split "-" raw) as [|seg0 rest] eqn:E; [by apply split_nonempty in E|].
  cbn [Py.index lookup list_lookup rbind].
  destruct (looks_like_region_code seg0).
  - destruct rest as [|seg rest]; cbn; [discriminate|].
    destruct (Py.startswith seg "BoxUsage:") eqn:Hp; [|discriminate].
    intros _. apply (split_segment_contains "-" _ _ seg); [|done].
    rewrite E. apply list_elem_of_further, list_elem_of_here.
  - cbn. destruct (Py.startswith seg0 "BoxUsage:") eqn:Hp; [|discriminate].
    intros _. apply (split_segment_contains "-" _ _ seg0); [|done].
    rewrite E. apply list_elem_of_here.
Qed.

Lemma usage_type_of_ec2_instance_type raw :
  usage_type_of raw = Ok (Some "ec2-instance") ->
  exists a b, Py.cut ":" raw = Some (a, b)
              /\ instance_type_of raw = Ok (Some (Py.replace "." "-" b)).
Proof.
  intros H%usage_type_of_ec2_contains.
  destruct (cut_of_contains _ H) as [[a b] Hc]. exists a, b. split; [done|].
  by rewrite instance_type_of_eq, H, Hc.
Qed.

Lemma ByInstanceType_match_iff r :
  ByInstanceType_match r = Ok true <-> usage_type r = Ok (Some "ec2-instance").
Proof.
  unfold ByInstanceType_match. destruct (usage_type r) as [ut|e]; cbn; [|done].
  unfold tags. rewrite map_size_empty. cbn. rewrite andb_true_r. split.
  - intros [= H%bool_decide_eq_true]. by subst.
  - intros [= ->]. done.
Qed.

Lemma ec2_instance_type_present r :
  usage_type r = Ok (Some "ec2-instance") -> exists it, instance_type r = Ok (Some it).
Proof.
  unfold usage_type, instance_type.
  destruct (Py.getitem (content r) "lineItem/UsageType") as [raw|]; [|done].
  cbn. intros (a & b & _ & ->)%usage_type_of_ec2_instance_type. eauto.
Qed.

(** C7: the classifier maps "USE1-USW2-AWS-In-Bytes" to the category
    unknown (None) with no instance type, "APN1-BoxUsage:c3.2xlarge" to
    ec2-instance with instance type "c3-2xlarge", and "BoxUsage:m1.small" to
    ec2-instance with instance type "m1-small"; the instance type is the
    text after the first ":" of the raw string, every "." replaced by "-". *)
Theorem C7_classifier_examples :
  usage_type_of "USE1-USW2-AWS-In-Bytes" = Ok None
  /\ instance_type_of "USE1-USW2-AWS-In-Bytes" = Ok None
  /\ usage_type_of "APN1-BoxUsage:c3.2xlarge" = Ok (Some "ec2-instance")
  /\ instance_type_of "APN1-BoxUsage:c3.2xlarge" = Ok (Some "c3-2xlarge")
  /\ usage_type_of "BoxUsage:m1.small" = Ok (Some "ec2-instance")
  /\ instance_type_of "BoxUsage:m1.small" = Ok (Some "m1-small")
  /\ (forall raw,
        instance_type_of raw =
          if Py.contains "BoxUsage:" raw then
            match Py.cut ":" raw with
            | Some (_, after) => Ok (Some (Py.replace "." "-" after))
            | None => Ok None
            end
          else Ok None)
  /\ (forall s, Py.any_char (Ascii.eqb ".") (Py.replace "." "-" s) = false).
Proof.
  repeat split; try (vm_compute; reflexivity).
  - apply instance_type_of_eq.
  - intros s. by apply replace_removes.
Qed.

(** C3, at the input the claim names: on a usage type that is only a
    region code, "APN1", [usage_type] raises IndexError (the list is empty
    once the code is dropped and [splut[0]] is read); it does not return
    the category unknown. *)
Theorem C3_region_code_only_raises :
  usage_type_of "APN1" = Raise IndexError
  /\ usage_type (Row_init ["lineItem/UsageType"] ["APN1"]) = Raise IndexError
  /\ looks_like_region_code "APN1" = true.
Proof. repeat split; vm_compute; reflexivity. Qed.

(** C10, amended: a record whose category is ec2-instance (equivalently,
    one that [ByInstanceType.match] accepts) has an instance type that is a
    string, not None: the text after the first ":" of the raw usage type
    with "." replaced by "-"; it is the empty string when the raw usage type
    ends with "BoxUsage:" and has no earlier ":". *)
Theorem C10_ec2_instance_has_instance_type (r : Row) :
  usage_type r = Ok (Some "ec2-instance") \/ ByInstanceType_match r = Ok true ->
  usage_type r = Ok (Some "ec2-instance")
  /\ ByInstanceType_match r = Ok true
  /\ exists raw before after,
       content r !! "lineItem/UsageType" = Some raw
       /\ Py.cut ":" raw = Some (before, after)
       /\ instance_type r = Ok (Some (Py.replace "." "-" after))
       /\ (forall p, raw = p +:+ "BoxUsage:" -> Py.cut ":" p = None ->
             instance_type r = Ok (Some EmptyString)).
Proof.
  intros H.
  assert (usage_type r = Ok (Some "ec2-instance")) as Hut.
  { destruct H as [H | H]; [done | by apply ByInstanceType_match_iff]. }
  split; [done|]. split; [by apply ByInstanceType_match_iff|].
  unfold usage_type, instance_type, Py.getitem in *.
  destruct (content r !! "lineItem/UsageType") as [raw|]; [|discriminate].
  cbn in Hut |- *.
  destruct (usage_type_of_ec2_instance_type _ Hut) as (a & b & Hc & Hit).
  exists raw, a, b. repeat split; [done..|].
  intros p -> Hp. rewrite Hit. rewrite (cut_app_suffix _ Hp) in Hc.
  by injection Hc as <- <-.
Qed.

(** The aside of C10 as worded fails when a ":" comes before "BoxUsage:":
    "US:1" passes the region-code test, the category of "US:1-BoxUsage:" is
    ec2-instance, the raw usage type ends at "BoxUsage:", and the instance
    type is the text after the first ":", "1-BoxUsage:", not the empty
    string. *)
Lemma C10_counterexample :
  let r := Row_init ["lineItem/UsageType"] ["US:1-BoxUsage:"] in
  usage_type r = Ok (Some "ec2-instance")
  /\ content r !! "lineItem/UsageType" = Some ("US:1-" +:+ "BoxUsage:")
  /\ instance_type r = Ok (Some "1-BoxUsage:")
  /\ instance_type r <> Ok (Some EmptyString).
Proof.
  repeat split; try (vm_compute; reflexivity).
  vm_compute. discriminate.
Qed.

(** ** Region lookup *)

(** C8: for a record with a location string, [region] returns the code
    that REGION_NAMES gives for a recognised string ("US East (N. Virginia)"
    gives "us-east-1") and "noregion" for every other string; it raises
    nothing. *)
Theorem C8_region_or_noregion (r : Row) (location : string) :
  content r !! "product/location" = Some location ->
  (forall code, REGION_NAMES !! location = Some code -> region r = Ok code)
  /\ (REGION_NAMES !! location = None -> region r = Ok "noregion")
  /\ (location ∉ [ "US East (N. Virginia)"; "US West (N. California)";
                   "US West (Oregon)"; "EU (Ireland)"; "EU (Frankfurt)";
                   "Asia Pacific (Tokyo)"; "Asia Pacific (Seoul)";
                   "Asia Pacific (Singapore)"; "Asia Pacific (Sydney)";
                   "South America (Sao Paulo)" ] -> region r = Ok "noregion")
  /\ (location = "US East (N. Virginia)" -> region r = Ok "us-east-1")
  /\ ~ raises (region r).
Proof.
  intros Hloc. unfold region. rewrite (getitem_Some _ _ _ Hloc). cbn [rbind].
  unfold region_of. repeat split.
  - by intros code ->.
  - by intros ->.
  - intros H. by rewrite (REGION_NAMES_unrecognized _ H).
  - intros ->. vm_compute. reflexivity.
  - intros [e He]. destruct (REGION_NAMES !! location); discriminate.
Qed.

(** ** Row construction *)

(** C4, amended: [Row] never fails on lists of any two lengths; it pairs
    names and values by position as far as the shorter list goes, so that
    (for distinct names) the column at position [i] holds the value at
    position [i] and is absent when the values stop before [i]; reading an
    absent column is a KeyError. *)
Theorem C4_row_pairs_by_position (col_names row_list : list string) (i : nat) (k : string) :
  NoDup col_names -> col_names !! i = Some k ->
  content (Row_init col_names row_list) !! k = row_list !! i
  /\ ((length row_list <= i)%nat ->
      Py.getitem (content (Row_init col_names row_list)) k = Raise KeyError)
  /\ (forall v, row_list !! i = Some v ->
      Py.getitem (content (Row_init col_names row_list)) k = Ok v).
Proof.
  intros Hnd Hi.
  assert (content (Row_init col_names row_list) !! k = row_list !! i) as E.
  { unfold Row_init, Py.dict. cbn [content].
    rewrite (dict_zip_lookup _ _ _ i) by done.
    destruct (row_list !! i); [done | apply lookup_empty]. }
  split; [done|]. split.
  - intros Hlen. apply getitem_None. rewrite E. by apply lookup_ge_None.
  - intros v Hv. apply getitem_Some. by rewrite E.
Qed.

(** ** Formatting *)




Lemma MetricFormatter_init_unset environ :
  environ !! "AWSBILL_METRIC_PREFIX" = None ->
  _initial_pieces (MetricFormatter_init environ) = [None].
Proof. unfold MetricFormatter_init, getenv. by intros ->. Qed.

Lemma MetricFormatter_init_empty environ :
  environ !! "AWSBILL_METRIC_PREFIX" = Some EmptyString ->
  _initial_pieces (MetricFormatter_init environ) = [].
Proof. unfold MetricFormatter_init, getenv. by intros ->. Qed.

Lemma MetricFormatter_init_prefix environ prefix :
  environ !! "AWSBILL_METRIC_PREFIX" = Some prefix -> prefix <> EmptyString ->
  _initial_pieces (MetricFormatter_init environ) = [Some prefix].
Proof.
  unfold MetricFormatter_init, getenv. intros -> H.
  rewrite bool_decide_eq_true_2; [done | congruence].
Qed.

(** With the prefix variable set, [format] calls [strftime] and returns the
    line made with the text it gives. *)
Lemma format_set environ prefix ts_id timestamp value :
  environ !! "AWSBILL_METRIC_PREFIX" = Some prefix ->
  MetricFormatter_format (MetricFormatter_init environ) ts_id timestamp value
  = do stamp <- strftime_s ts_id timestamp;
    Ok (line_text prefix (ts_id, timestamp, value) stamp).
Proof.
  intros H. unfold MetricFormatter_format, line_text, prefixed. cbn [fst snd].
  case_decide as Hp.
  - subst prefix. by rewrite (MetricFormatter_init_empty _ H).
  - by rewrite (MetricFormatter_init_prefix _ _ H Hp).
Qed.





(** C2, at the failing input: when AWSBILL_METRIC_PREFIX is not set,
    [os.getenv] gives None, None differs from the empty string, the initial
    pieces are [None], and [format] raises TypeError in [".".join] for
    every metric name, timestamp and value. *)
Theorem C2_unset_prefix_raises (environ : gmap string string)
    (ts_id : string) (timestamp : Arrow) (value : float) :
  environ !! "AWSBILL_METRIC_PREFIX" = None ->
  MetricFormatter_format (MetricFormatter_init environ) ts_id timestamp value
  = Raise TypeError.
Proof.
  intros H. unfold MetricFormatter_format.
  by rewrite (MetricFormatter_init_unset _ H).
Qed.

(** ** The aggregation table *)

Lemma accumulator_empty ts_id t : accumulator ∅ ts_id t = None.
Proof. unfold accumulator. by rewrite lookup_empty. Qed.

Lemma accumulator_add_amount timeseries ts_id t a ts_id' t' :
  accumulator (add_amount timeseries ts_id t a) ts_id' t'
  = if decide ((ts_id, t) = (ts_id', t'))
    then Some (fadd (default fzero (accumulator timeseries ts_id t)) a)
    else accumulator timeseries ts_id' t'.
Proof.
  unfold accumulator, add_amount.
  destruct (decide (ts_id = ts_id')) as [<-|Hn].
  - rewrite lookup_insert_eq. cbn.
    destruct (decide (t = t')) as [<-|Ht].
    + rewrite lookup_insert_eq, decide_True by done.
      by destruct (timeseries !! ts_id).
    + rewrite lookup_insert_ne, decide_False by congruence.
      destruct (timeseries !! ts_id); [done|]. cbn. apply lookup_empty.
  - rewrite lookup_insert_ne, decide_False by congruence. done.
Qed.

Lemma fadd_zero_l a : a <> S754_zero true -> fadd fzero a = a.
Proof. by destruct a as [[]| | |]. Qed.

Lemma accumulator_foldl es timeseries ts_id t :
  accumulator (foldl add_entry timeseries es) ts_id t
  = match contributions es ts_id t with
    | [] => accumulator timeseries ts_id t
    | cs => Some (foldl fadd (default fzero (accumulator timeseries ts_id t)) cs)
    end.
Proof.
  revert timeseries. induction es as [|[[n u] a] es IH]; intros timeseries; [done|].
  cbn [foldl]. rewrite IH. unfold contributions, add_entry. cbn [fst snd].
  rewrite filter_cons, accumulator_add_amount. cbn [fst snd].
  destruct (decide ((n, u) = (ts_id, t))) as [[= -> ->]|Hne].
  - cbn [fmap list_fmap snd foldl default].
    by destruct ((filter (fun e => e.1 = (ts_id, t)) es).*2).
  - done.
Qed.

Lemma elem_of_points timeseries ts_id t v :
  (ts_id, t, v) ∈ points timeseries <-> accumulator timeseries ts_id t = Some v.
Proof.
  unfold points, accumulator. rewrite list_elem_of_bind. split.
  - intros [[n ts] [Hin Hts]]. cbn [fst snd] in Hin.
    apply list_elem_of_fmap in Hin as [[u w] [[= -> -> ->] Hin]].
    apply elem_of_map_to_list in Hts, Hin. by rewrite Hts.
  - destruct (timeseries !! ts_id) as [ts|] eqn:Hts; [|done]. cbn. intros Hv.
    exists (ts_id, ts). split; [|by apply elem_of_map_to_list].
    apply list_elem_of_fmap. exists (t, v). split; [done|].
    by apply elem_of_map_to_list.
Qed.

Lemma NoDup_points timeseries : NoDup (points timeseries).
Proof.
  unfold points. apply NoDup_bind.
  - intros [n1 ts1] [n2 ts2] y H1 H2 Hy1 Hy2. cbn [fst snd] in *.
    apply list_elem_of_fmap in Hy1 as [[u1 w1] [-> _]].
    apply list_elem_of_fmap in Hy2 as [[u2 w2] [[= -> _ _] _]].
    apply elem_of_map_to_list in H1, H2. congruence.
  - intros [n ts] _. cbn [fst snd]. apply NoDup_fmap_2_strong.
    + intros [u1 w1] [u2 w2] _ _. by intros [= -> ->].
    + apply NoDup_map_to_list.
  - apply NoDup_map_to_list.
Qed.

(** At most one accumulator per (metric name, timestamp) pair. *)
Lemma NoDup_points_keys timeseries : NoDup (points timeseries).*1.
Proof.
  apply NoDup_fmap_fst; [|apply NoDup_points].
  intros [n t] v1 v2 H1%elem_of_points H2%elem_of_points. congruence.
Qed.

Lemma points_two n1 n2 t a :
  n1 <> n2 ->
  points (add_amount (add_amount ∅ n1 t a) n2 t a)
  ≡ₚ [(n1, t, fadd fzero a); (n2, t, fadd fzero a)].
Proof.
  intros Hn. apply NoDup_Permutation.
  - apply NoDup_points.
  - apply NoDup_cons. split; [|apply NoDup_singleton].
    rewrite list_elem_of_singleton. congruence.
  - intros [[n u] w]. rewrite elem_of_points.
    rewrite !accumulator_add_amount, !accumulator_empty. cbn [default].
    rewrite (decide_False (P := (n1, t) = (n2, t))) by congruence.
    rewrite !elem_of_cons, elem_of_nil. clear float_of_str arrow_get strftime_s.
    repeat case_decide; simplify_eq; cbn [default]; intuition congruence.
Qed.

Lemma filter_none {A} (P : A -> Prop) `{forall x, Decision (P x)} (l : list A) :
  (forall x, x ∈ l -> ~ P x) -> filter P l = [].
Proof.
  induction l as [|x l IH]; intros Hl; [done|].
  rewrite filter_cons_False by (apply Hl; left). apply IH.
  intros y Hy. apply Hl. by right.
Qed.

Lemma filter_key_present {K V} `{EqDecision K} (l : list (K * V)) k v :
  NoDup l.*1 -> (k, v) ∈ l -> filter (fun p => p.1 = k) l = [(k, v)].
Proof.
  induction l as [|[k' v'] l IH]; cbn [fmap list_fmap fst];
    intros Hnd Hin; [by apply elem_of_nil in Hin|].
  apply NoDup_cons in Hnd as [Hk' Hnd]. rewrite filter_cons. cbn [fst].
  apply elem_of_cons in Hin as [[= <- <-]|Hin].
  - rewrite decide_True by done. f_equal.
    apply filter_none. intros [k2 v2] Hin2 Hk. cbn in Hk. subst k2.
    apply Hk'. apply list_elem_of_fmap. by exists (k, v2).
  - rewrite decide_False; [by apply IH|].
    intros ->. apply Hk'. apply list_elem_of_fmap. by exists (k, v).
Qed.

Lemma filter_key_absent {K V} `{EqDecision K} (l : list (K * V)) k :
  (forall v, (k, v) ∉ l) -> filter (fun p => p.1 = k) l = [].
Proof.
  intros H. apply filter_none. intros [k' v] Hin Hk. cbn in Hk. subst k'.
  by apply (H v).
Qed.

(** ** Processing records *)

Lemma process_patterns_entries pats row timeseries :
  process_patterns pats row timeseries
  = do es <- entries pats row; Ok (foldl add_entry timeseries es).
Proof.
  revert timeseries. induction pats as [|pat pats IH]; intros timeseries; [done|].
  cbn [process_patterns entries].
  destruct (pat_match pat row) as [[]|]; cbn [rbind]; [|by apply IH|done].
  destruct (pat_metric_name pat row) as [ts_id|]; cbn [rbind]; [|done].
  destruct (end_time row) as [t|]; cbn [rbind]; [|done].
  destruct (amount row) as [a|]; cbn [rbind]; [|done].
  rewrite IH. by destruct (entries pats row).
Qed.

Lemma process_all_entries l rows :
  process_all l rows
  = do es <- all_entries (_patterns l) rows;
    Ok {| _patterns := _patterns l;
          _timeseries := foldl add_entry (_timeseries l) es |}.
Proof.
  revert l. induction rows as [|row rows IH]; intros l.
  - by destruct l.
  - cbn [process_all]. unfold MetricLedger_process.
    rewrite process_patterns_entries. unfold all_entries. cbn [map_r].
    destruct (entries (_patterns l) row) as [es|]; cbn [rbind]; [|done].
    rewrite IH. unfold all_entries. cbn [_patterns _timeseries].
    destruct (map_r _ rows) as [ess|]; cbn [rbind concat]; [|done].
    by rewrite foldl_app.
Qed.

Lemma map_r_total {A B} (f : A -> result B) (g : A -> B) (l : list A) :
  (forall x, f x = Ok (g x)) -> map_r f l = Ok (g <$> l).
Proof.
  intros H. induction l as [|x l IH]; [done|].
  cbn [map_r]. by rewrite H, IH.
Qed.

Lemma map_r_total_on {A B} (f : A -> result B) (g : A -> B) (l : list A) :
  (forall x, x ∈ l -> f x = Ok (g x)) -> map_r f l = Ok (g <$> l).
Proof.
  intros H. induction l as [|x l IH]; [done|].
  cbn [map_r]. rewrite H by apply list_elem_of_here.
  rewrite IH; [done|]. intros y Hy. apply H. by apply list_elem_of_further.
Qed.

Lemma map_r_first_raises {A B} (f : A -> result B) (x : A) (l : list A) e :
  f x = Raise e -> map_r f (x :: l) = Raise e.
Proof. intros H. cbn [map_r]. by rewrite H. Qed.

Lemma map_r_ext {A B} (f g : A -> result B) (l : list A) :
  (forall x, f x = g x) -> map_r f l = map_r g l.
Proof.
  intros H. induction l as [|x l IH]; [done|].
  cbn [map_r]. by rewrite H, IH.
Qed.

Lemma map_r_Forall2 {A B} (f : A -> result B) (R : A -> B -> Prop) (l : list A) :
  Forall (fun x => exists y, f x = Ok y /\ R x y) l ->
  exists ys, map_r f l = Ok ys /\ Forall2 R l ys.
Proof.
  induction 1 as [|x l (y & Hy & HR) _ (ys & Hys & IH)].
  - exists []. split; [done | constructor].
  - exists (y :: ys). cbn [map_r]. rewrite Hy, Hys. split; [done|]. by constructor.
Qed.

(** The line [format] gives for a point when the prefix variable is set. *)
Lemma format_point environ prefix p :
  environ !! "AWSBILL_METRIC_PREFIX" = Some prefix ->
  MetricFormatter_format (MetricFormatter_init environ) p.1.1 p.1.2 p.2
  = do stamp <- strftime_s p.1.1 p.1.2; Ok (line_text prefix p stamp).
Proof. intros H. destruct p as [[n t] v]. by apply format_set. Qed.

Lemma MetricLedger_output_set environ prefix l :
  environ !! "AWSBILL_METRIC_PREFIX" = Some prefix ->
  Forall (fun p => exists stamp, strftime_s p.1.1 p.1.2 = Ok stamp) (points (_timeseries l)) ->
  exists lines,
    MetricLedger_output environ l = Ok lines
    /\ Forall2 (written_as prefix) (points (_timeseries l)) lines.
Proof.
  intros H Hall. unfold MetricLedger_output. apply map_r_Forall2.
  eapply Forall_impl; [exact Hall|]. intros p [stamp Hs].
  exists (line_text prefix p stamp). rewrite (format_point _ _ _ H), Hs.
  split; [done|]. by exists stamp.
Qed.

(** C6: when a sequence of records is processed from an empty table (no
    field of a contributing record being malformed), the table holds, for a
    (metric name, timestamp) pair, no point when no processed record
    contributes to the pair and exactly one otherwise, whose value is the
    sum (from 0.0, in processing order) of the amounts of the contributing
    records; two contributions [a1], [a2] to one pair give the one point of
    value [0.0 + a1 + a2]; and with the prefix variable set, whatever its
    value, every point is written as one line, in the order of the table:
    the name after the prefix, the value and the text [strftime] returns for
    the timestamp (when it returns one for every point). *)
Theorem C6_one_accumulator_per_pair
    (l : MetricLedger) (rows : list Row) (es : list (string * Z * float)) :
  _timeseries l = ∅ ->
  all_entries (_patterns l) rows = Ok es ->
  exists l',
    process_all l rows = Ok l'
    /\ NoDup (points (_timeseries l')).*1
    /\ (forall ts_id t,
          filter (fun p => p.1 = (ts_id, t)) (points (_timeseries l'))
          = match contributions es ts_id t with
            | [] => []
            | cs => [(ts_id, t, fsum cs)]
            end)
    /\ (forall ts_id t a1 a2,
          contributions es ts_id t = [a1; a2] ->
          filter (fun p => p.1 = (ts_id, t)) (points (_timeseries l'))
          = [(ts_id, t, fadd (fadd fzero a1) a2)])
    /\ (forall environ prefix,
          environ !! "AWSBILL_METRIC_PREFIX" = Some prefix ->
          Forall (fun p => exists stamp, strftime_s p.1.1 p.1.2 = Ok stamp)
                 (points (_timeseries l')) ->
          exists lines,
            MetricLedger_output environ l' = Ok lines
            /\ Forall2 (written_as prefix) (points (_timeseries l')) lines).
Proof.
  intros Hempty Hes. rewrite process_all_entries, Hes. cbn [rbind].
  eexists. split; [reflexivity|]. cbn [_timeseries]. rewrite Hempty.
  split; [apply NoDup_points_keys|].
  assert (forall ts_id t,
    filter (fun p => p.1 = (ts_id, t)) (points (foldl add_entry ∅ es))
    = match contributions es ts_id t with
      | [] => []
      | cs => [(ts_id, t, fsum cs)]
      end) as Hmain.
  { intros ts_id t.
    pose proof (accumulator_foldl es ∅ ts_id t) as Hacc.
    rewrite accumulator_empty in Hacc. cbn [default] in Hacc.
    destruct (contributions es ts_id t) as [|c cs].
    - apply filter_key_absent. intros v Hv%elem_of_points. congruence.
    - apply filter_key_present; [apply NoDup_points_keys|].
      by apply elem_of_points. }
  split; [done|]. split.
  - intros ts_id t a1 a2 Hc. by rewrite Hmain, Hc.
  - intros environ prefix Henv Hall. by apply MetricLedger_output_set.
Qed.

(** Processing fails exactly when the contributions of some record cannot
    be computed. *)
Lemma process_all_raises l rows e :
  process_all l rows = Raise e <-> all_entries (_patterns l) rows = Raise e.
Proof.
  rewrite process_all_entries.
  destruct (all_entries (_patterns l) rows); cbn [rbind]; split; congruence.
Qed.

(** ** The pipeline driver *)

Lemma generate_metrics_loop_app col_names rows1 rows2 ledger :
  generate_metrics_loop col_names (rows1 ++ rows2) ledger
  = do ledger' <- generate_metrics_loop col_names rows1 ledger;
    generate_metrics_loop col_names rows2 ledger'.
Proof.
  revert ledger. induction rows1 as [|row_list rows1 IH]; intros ledger; [done|].
  cbn [app generate_metrics_loop].
  destruct (Py.getitem _ "lineItem/LineItemType") as [lit|]; cbn [rbind]; [|done].
  destruct (negb (String.eqb lit "Usage")); [apply IH|].
  destruct (interval _) as [i|]; cbn [rbind]; [|done].
  destruct (negb (i =? 3600)); [apply IH|].
  destruct (MetricLedger_process _ _) as [ledger'|]; cbn [rbind]; [apply IH|done].
Qed.

Lemma skipped_step col_names row_list rows ledger :
  skipped col_names row_list ->
  generate_metrics_loop col_names (row_list :: rows) ledger
  = generate_metrics_loop col_names rows ledger.
Proof.
  intros (lit & Hlit & Hskip). cbn [generate_metrics_loop].
  rewrite (getitem_Some _ _ _ Hlit). cbn [rbind].
  destruct (String.eqb_spec lit "Usage") as [->|Hne]; cbn [negb].
  - destruct Hskip as [? | (i & -> & Hi)]; [done|]. cbn [rbind].
    apply Z.eqb_neq in Hi. by rewrite Hi.
  - done.
Qed.


Lemma interval_end_time r i : interval r = Ok i -> exists t, end_time r = Ok t.
Proof.
  unfold interval, end_time, Py.split1.
  destruct (Py.getitem (content r) "identity/TimeInterval") as [field|];
    cbn [rbind]; [|done].
  destruct (Py.cut "/" field) as [[a b]|]; cbn.
  - destruct (arrow_get_r a); cbn; [|done].
    destruct (arrow_get_r b) as [t|]; cbn; [|done]. eauto.
  - destruct (arrow_get_r field); cbn; done.
Qed.

Lemma ec2_name_not_total loc it :
  region_of loc +:+ "." +:+ "ec2-instance" +:+ "." +:+ it
  <> "all-regions.all-types.total-cost".
Proof.
  pose proof (region_of_codes loc) as H. unfold region_codes in H.
  repeat (apply elem_of_cons in H as [-> | H]; [discriminate|]).
  by apply elem_of_nil in H.
Qed.

(** C5, amended: for an hourly "Usage" row whose category is ec2-instance
    (its usage type, a leading region code dropped, begins with
    "BoxUsage:"), with a location field and a cost that parses, the run
    over the header and that row builds exactly two points:
    "<region>.ec2-instance.<instance-type>" and
    "all-regions.all-types.total-cost", both at the end time of the row and
    both of value 0.0 + amount, which is the amount (for an amount of
    negative zero, zero); with the prefix variable set, the run writes the
    two lines of these points, made with the text [strftime] returns for the
    end time, and raises what [strftime] raises when it raises. *)
Theorem C5_one_row_two_points
    (col_names row_list : list string) (location : string) (a : float) :
  let row := Row_init col_names row_list in
  content row !! "lineItem/LineItemType" = Some "Usage" ->
  interval row = Ok 3600 ->
  usage_type row = Ok (Some "ec2-instance") ->
  content row !! "product/location" = Some location ->
  amount row = Ok a ->
  exists t it ledger,
    end_time row = Ok t
    /\ instance_type row = Ok (Some it)
    /\ generate_ledger [col_names; row_list] = Ok ledger
    /\ points (_timeseries ledger)
       ≡ₚ [ (region_of location +:+ ".ec2-instance." +:+ it, t, fadd fzero a);
            ("all-regions.all-types.total-cost", t, fadd fzero a) ]
    /\ (a <> S754_zero true -> fadd fzero a = a)
    /\ (forall environ prefix stamp1 stamp2,
          environ !! "AWSBILL_METRIC_PREFIX" = Some prefix ->
          strftime_s (region_of location +:+ ".ec2-instance." +:+ it) t = Ok stamp1 ->
          strftime_s "all-regions.all-types.total-cost" t = Ok stamp2 ->
          exists lines,
            generate_metrics environ [col_names; row_list] = Ok lines
            /\ lines ≡ₚ
               [ line_text prefix
                   (region_of location +:+ ".ec2-instance." +:+ it, t, fadd fzero a) stamp1;
                 line_text prefix
                   ("all-regions.all-types.total-cost", t, fadd fzero a) stamp2 ])
    /\ (forall environ prefix e,
          environ !! "AWSBILL_METRIC_PREFIX" = Some prefix ->
          strftime_s (region_of location +:+ ".ec2-instance." +:+ it) t = Raise e ->
          strftime_s "all-regions.all-types.total-cost" t = Raise e ->
          generate_metrics environ [col_names; row_list] = Raise e).
Proof.
  intros row Hlit Hint Hut Hloc Ha.
  destruct (interval_end_time _ _ Hint) as [t Ht].
  destruct (ec2_instance_type_present row Hut) as [it Hit].
  set (n1 := region_of location +:+ ".ec2-instance." +:+ it).
  set (n2 := "all-regions.all-types.total-cost").
  set (v := fadd fzero a).
  set (ts := add_amount (add_amount ∅ n1 t a) n2 t a).
  assert (n1 <> n2) as Hn by apply ec2_name_not_total.
  assert (generate_ledger [col_names; row_list]
          = Ok {| _patterns := [ByInstanceType; AllCosts]; _timeseries := ts |}) as Hrun.
  { unfold generate_ledger. cbn [generate_metrics_loop]. fold row.
    rewrite (getitem_Some _ _ _ Hlit). cbn [rbind String.eqb negb].
    rewrite Hint. cbn [rbind Z.eqb Pos.eqb negb].
    unfold MetricLedger_process, MetricLedger_init. cbn [_patterns _timeseries].
    cbn [process_patterns ByInstanceType AllCosts pat_match pat_metric_name].
    rewrite (proj2 (ByInstanceType_match_iff row) Hut). cbn [rbind].
    unfold ByInstanceType_metric_name, region.
    rewrite (getitem_Some _ _ _ Hloc), Hut, Hit, Ht, Ha. cbn [rbind Py.join].
    done. }
  assert (points ts ≡ₚ [(n1, t, v); (n2, t, v)]) as Hperm
    by (by apply points_two).
  exists t, it, {| _patterns := [ByInstanceType; AllCosts]; _timeseries := ts |}.
  split; [done|]. split; [done|]. split; [done|]. split; [done|].
  split; [apply fadd_zero_l|].
  assert (forall p, p ∈ points ts -> p = (n1, t, v) \/ p = (n2, t, v)) as Hin.
  { intros p Hp. rewrite Hperm in Hp.
    apply elem_of_cons in Hp as [-> | Hp]; [by left|].
    apply elem_of_cons in Hp as [-> | Hp]; [by right|]. by apply elem_of_nil in Hp. }
  split.
  - intros environ prefix stamp1 stamp2 Henv Hs1 Hs2.
    change (strftime_s n1 t = Ok stamp1) in Hs1.
    change (strftime_s n2 t = Ok stamp2) in Hs2.
    exists ((fun p => line_text prefix p (if decide (p.1.1 = n1) then stamp1 else stamp2))
            <$> points ts). split.
    + unfold generate_metrics. rewrite Hrun. cbn [rbind].
      unfold MetricLedger_output. cbn [_timeseries]. apply map_r_total_on.
      intros p Hp. rewrite (format_point _ _ _ Henv).
      destruct (Hin p Hp) as [-> | ->]; cbn [fst snd].
      * rewrite Hs1. by rewrite decide_True.
      * rewrite Hs2. by rewrite decide_False by congruence.
    + rewrite Hperm. cbn [fmap list_fmap fst snd].
      rewrite decide_True by done. by rewrite decide_False by congruence.
  - intros environ prefix e Henv Hs1 Hs2.
    change (strftime_s n1 t = Raise e) in Hs1.
    change (strftime_s n2 t = Raise e) in Hs2.
    unfold generate_metrics. rewrite Hrun. cbn [rbind].
    unfold MetricLedger_output. cbn [_timeseries].
    destruct (points ts) as [|p ps] eqn:Hps.
    + by apply Permutation_nil_cons in Hperm.
    + apply map_r_first_raises. rewrite (format_point _ _ _ Henv).
      destruct (Hin p (list_elem_of_here _ _)) as [-> | ->]; cbn [fst snd].
      * by rewrite Hs1.
      * by rewrite Hs2.
Qed.

(** * Further properties *)

(** ** Input and output selection *)

Lemma prefix_append_self p rest : String.prefix p (p +:+ rest) = true.
Proof.
  induction p as [|c p IH]; [apply prefix_nil|].
  change (String c p +:+ rest) with (String c (p +:+ rest)).
  cbn [String.prefix]. by destruct (Ascii.ascii_dec c c).
Qed.

Lemma startswith_iff s p : Py.startswith s p = true <-> exists rest, s = p +:+ rest.
Proof.
  unfold Py.startswith. split.
  - apply prefix_decompose.
  - intros [rest ->]. apply prefix_append_self.
Qed.

Lemma str_from_scheme rest :
  str_from (String.length "file://" - 1) ("file://" +:+ rest) = "/" +:+ rest.
Proof. reflexivity. Qed.

(** [open_csv] returns a file exactly when AWSBILL_REPORT_PATH is
    "file://" followed by some text and the path "/" followed by that text
    can be opened: the slice keeps the last "/" of the scheme, so the path
    opened is always absolute. *)
Theorem open_csv_returns_iff (environ : gmap string string)
    (files : string -> option (list (list string))) (rows : list (list string)) :
  open_csv environ files = Returns rows
  <-> exists rest,
        environ !! "AWSBILL_REPORT_PATH" = Some ("file://" +:+ rest)
        /\ files ("/" +:+ rest) = Some rows.
Proof.
  unfold open_csv, getenv. split.
  - destruct (environ !! "AWSBILL_REPORT_PATH") as [report_path|]; [|done].
    destruct (Py.startswith report_path "file://") eqn:Hf.
    + apply startswith_iff in Hf as [rest ->]. rewrite str_from_scheme.
      destruct (files _) eqn:Hfile; [|done].
      intros [= ->]. by exists rest.
    + by destruct (Py.startswith report_path "s3://").
  - intros (rest & -> & Hfile).
    rewrite (proj2 (startswith_iff _ _)) by by exists rest.
    rewrite str_from_scheme. by rewrite Hfile.
Qed.

(** When [open_csv] fails, the exception tells why: AttributeError when
    the variable is not set, IOError when the "file://" path cannot be
    opened, NotImplementedError for every "s3://" path, ValueError for every
    other value. *)
Theorem open_csv_failure (environ : gmap string string)
    (files : string -> option (list (list string))) (e : exception) :
  open_csv environ files = Throws e ->
  (e = SetupError AttributeError /\ environ !! "AWSBILL_REPORT_PATH" = None)
  \/ (e = SetupError IOError
      /\ exists rest, environ !! "AWSBILL_REPORT_PATH" = Some ("file://" +:+ rest)
                      /\ files ("/" +:+ rest) = None)
  \/ (e = SetupError NotImplementedError
      /\ exists rest, environ !! "AWSBILL_REPORT_PATH" = Some ("s3://" +:+ rest))
  \/ (e = ProgramError ValueError
      /\ exists report_path,
           environ !! "AWSBILL_REPORT_PATH" = Some report_path
           /\ Py.startswith report_path "file://" = false
           /\ Py.startswith report_path "s3://" = false).
Proof.
  unfold open_csv, getenv.
  destruct (environ !! "AWSBILL_REPORT_PATH") as [report_path|].
  - destruct (Py.startswith report_path "file://") eqn:Hf.
    + apply startswith_iff in Hf as [rest ->]. rewrite str_from_scheme.
      destruct (files _) eqn:Hfile; [done|].
      intros [= <-]. right; left. split; [done|]. by exists rest.
    + destruct (Py.startswith report_path "s3://") eqn:Hs.
      * apply startswith_iff in Hs as [rest ->].
        intros [= <-]. right; right; left. split; [done|]. by exists rest.
      * intros [= <-]. right; right; right. split; [done|]. by exists report_path.
  - intros [= <-]. by left.
Qed.

(** [open_output] returns (standard output) exactly when
    AWSBILL_GRAPHITE_URL is the string "stdout"; an "http://" or "https://"
    URL raises NotImplementedError, every other value ValueError, and an
    unset variable AttributeError. *)
Theorem open_output_returns_iff (environ : gmap string string) :
  (open_output environ = Returns sys_stdout
   <-> environ !! "AWSBILL_GRAPHITE_URL" = Some "stdout")
  /\ (environ !! "AWSBILL_GRAPHITE_URL" = None ->
      open_output environ = Throws (SetupError AttributeError))
  /\ (forall rest,
        environ !! "AWSBILL_GRAPHITE_URL" = Some ("http://" +:+ rest)
        \/ environ !! "AWSBILL_GRAPHITE_URL" = Some ("https://" +:+ rest) ->
        open_output environ = Throws (SetupError NotImplementedError))
  /\ (forall output_url,
        environ !! "AWSBILL_GRAPHITE_URL" = Some output_url ->
        output_url <> "stdout" ->
        Py.startswith output_url "http://" = false ->
        Py.startswith output_url "https://" = false ->
        open_output environ = Throws (ProgramError ValueError)).
Proof.
  unfold open_output, getenv. split; [|split; [|split]].
  - destruct (environ !! "AWSBILL_GRAPHITE_URL") as [url|]; [|done].
    destruct (String.eqb_spec url "stdout") as [->|Hne]; [done|].
    split; [|congruence].
    by destruct (Py.startswith url "http://" || Py.startswith url "https://").
  - by intros ->.
  - intros rest [-> | ->]; cbn [String.eqb String.append Ascii.eqb Bool.eqb].
    + by rewrite (proj2 (startswith_iff _ "http://")) by by exists rest.
    + rewrite (proj2 (startswith_iff _ "https://")) by by exists rest.
      by rewrite orb_true_r.
  - intros url -> Hne -> ->.
    by destruct (String.eqb_spec url "stdout").
Qed.

(** ** Rows, again *)

Lemma dict_lookup_last {V} (l : list (string * V)) (m : gmap string V) k :
  foldl (fun d kv => <[kv.1 := kv.2]> d) m l !! k
  = match last (filter (fun kv => kv.1 = k) l) with
    | Some kv => Some kv.2
    | None => m !! k
    end.
Proof.
  induction l as [|x l IH] using rev_ind; [done|].
  rewrite foldl_app, filter_app. cbn [foldl]. rewrite filter_cons, filter_nil.
  destruct (decide (x.1 = k)) as [<-|Hne].
  - by rewrite last_snoc, lookup_insert_eq.
  - by rewrite app_nil_r, lookup_insert_ne.
Qed.

Lemma zip_fst_take {A B} (ks : list A) (vs : list B) :
  (zip ks vs).*1 = take (length vs) ks.
Proof.
  revert vs. induction ks as [|k ks IH]; intros [|v vs]; cbn; try done.
  by rewrite IH.
Qed.

(** [Row] with a repeated column name keeps the value of the last column
    of that name that has a value; a name is a key of the record exactly
    when it is among the first [len(row_list)] column names. *)
Theorem Row_init_last_wins (col_names row_list : list string) (k : string) :
  content (Row_init col_names row_list) !! k
  = snd <$> last (filter (fun kv => kv.1 = k) (zip col_names row_list))
  /\ (is_Some (content (Row_init col_names row_list) !! k)
      <-> k ∈ take (length row_list) col_names).
Proof.
  assert (content (Row_init col_names row_list) !! k
          = snd <$> last (filter (fun kv => kv.1 = k) (zip col_names row_list))) as E.
  { unfold Row_init, Py.dict. cbn [content]. rewrite dict_lookup_last.
    destruct (last _); [done | apply lookup_empty]. }
  split; [done|]. rewrite E, <- zip_fst_take, list_elem_of_fmap. split.
  - intros [v Hv]. destruct (last _) as [kv|] eqn:Hlast; [|done].
    apply last_Some_elem_of, list_elem_of_filter in Hlast as [Hk Hin].
    by exists kv.
  - intros (kv & -> & Hin).
    destruct (last (filter (fun kv' => kv'.1 = kv.1) (zip col_names row_list)))
      as [kv'|] eqn:Hlast; [by eexists|].
    apply last_None in Hlast.
    assert (kv ∈ filter (fun kv' => kv'.1 = kv.1) (zip col_names row_list)) as Hf
      by by apply list_elem_of_filter.
    rewrite Hlast in Hf. by apply elem_of_nil in Hf.
Qed.


(** [end_time] reads only the text after the first "/": it returns
    exactly when there is a "/" and that text parses, whatever comes before;
    without a "/" it raises IndexError, where [interval] raises the parser's
    error, or ValueError when the whole field parses as one timestamp. *)
Theorem end_time_ok_iff (r : Row) (field : string) :
  content r !! "identity/TimeInterval" = Some field ->
  (forall t, end_time r = Ok t
             <-> exists a b, Py.cut "/" field = Some (a, b) /\ arrow_get b = Some t)
  /\ (Py.cut "/" field = None ->
      end_time r = Raise IndexError
      /\ interval r = Raise (match arrow_get field with
                             | Some _ => ValueError
                             | None => ParserError
                             end)).
Proof.
  intros Hfield. unfold end_time, interval, Py.split1, arrow_get_r.
  rewrite (getitem_Some _ _ _ Hfield). cbn [rbind]. split.
  - intros t. destruct (Py.cut "/" field) as [[a b]|]; cbn; split.
    + destruct (arrow_get b) as [t'|] eqn:Hb; [|done]. intros [= ->]. by exists a, b.
    + intros (a' & b' & [= <- <-] & ->). done.
    + done.
    + by intros (a' & b' & ? & _).
  - intros ->. cbn. split; [done|]. by destruct (arrow_get field).
Qed.

(** ** Classification, again *)

Lemma split_singleton_no_sep sep s h :
  Py.split sep s = [h] -> Py.any_char (Ascii.eqb sep) s = false.
Proof.
  revert h. induction s as [|c s IH]; intros h; cbn [Py.split Py.any_char]; [done|].
  rewrite (Ascii.eqb_sym sep c). destruct (Ascii.eqb c sep).
  - intros [= _ H]. by apply split_nonempty in H.
  - destruct (Py.split sep s) as [|h' t] eqn:E; [by apply split_nonempty in E|].
    intros [= _ ->]. by apply (IH h').
Qed.

Lemma split_no_sep sep s : Py.any_char (Ascii.eqb sep) s = false -> Py.split sep s = [s].
Proof.
  induction s as [|c s IH]; cbn [Py.split Py.any_char]; [done|].
  rewrite (Ascii.eqb_sym sep c). destruct (Ascii.eqb c sep); [done|].
  intros H. by rewrite (IH H).
Qed.

Lemma first_segment_startswith sep p s :
  Py.any_char (Ascii.eqb sep) p = false ->
  String.prefix p (hd EmptyString (Py.split sep s)) = String.prefix p s.
Proof.
  revert p. induction s as [|c s IH]; intros p Hp.
  - done.
  - destruct p as [|a p]; [by rewrite !prefix_nil|].
    cbn [Py.any_char] in Hp. apply orb_false_iff in Hp as [Ha Hp].
    cbn [Py.split]. destruct (Ascii.eqb c sep) eqn:Hc.
    + cbn [hd String.prefix]. destruct (Ascii.ascii_dec a c) as [->|]; [|done].
      rewrite Ascii.eqb_sym in Ha. congruence.
    + specialize (IH p Hp).
      destruct (Py.split sep s) as [|h t] eqn:E; [by apply split_nonempty in E|].
      cbn [hd String.prefix] in IH |- *. by rewrite IH.
Qed.

Lemma split_after_segment sep seg rest :
  Py.any_char (Ascii.eqb sep) seg = false ->
  Py.split sep (seg +:+ String sep rest) = seg :: Py.split sep rest.
Proof.
  induction seg as [|c seg IH]; intros Hs.
  - change (EmptyString +:+ String sep rest) with (String sep rest).
    cbn [Py.split]. by rewrite Ascii.eqb_refl.
  - cbn [Py.any_char] in Hs. apply orb_false_iff in Hs as [Hc Hs].
    change (String c seg +:+ String sep rest)
      with (String c (seg +:+ String sep rest)).
    cbn [Py.split]. rewrite Ascii.eqb_sym in Hc. by rewrite Hc, (IH Hs).
Qed.

(** The category depends only on how the usage type begins: when the
    first "-"-segment does not pass the region-code test, it is
    ec2-instance exactly when the usage type starts with "BoxUsage:"; after one
    region code and a "-", exactly when the rest starts with "BoxUsage:" (a
    second region code is not dropped). *)
Theorem usage_type_of_by_prefix (raw : string) :
  (looks_like_region_code (hd EmptyString (Py.split "-" raw)) = false ->
   usage_type_of raw
   = Ok (if Py.startswith raw "BoxUsage:" then Some "ec2-instance" else None))
  /\ (forall rc rest,
        looks_like_region_code rc = true ->
        Py.any_char (Ascii.eqb "-") rc = false ->
        raw = rc +:+ String "-" rest ->
        usage_type_of raw
        = Ok (if Py.startswith rest "BoxUsage:" then Some "ec2-instance" else None)).
Proof.
  split.
  - intros Hrc. unfold usage_type_of.
    pose proof (first_segment_startswith "-" "BoxUsage:" raw eq_refl) as Hp.
    destruct (Py.split "-" raw) as [|seg0 t] eqn:E; [by apply split_nonempty in E|].
    cbn [hd] in Hrc, Hp. cbn [Py.index lookup list_lookup rbind]. rewrite Hrc.
    cbn. unfold Py.startswith. rewrite Hp. by destruct (String.prefix _ raw).
  - intros rc rest Hrc Hdash ->. unfold usage_type_of.
    rewrite (split_after_segment _ _ _ Hdash).
    cbn [Py.index lookup list_lookup rbind]. rewrite Hrc. cbn [drop].
    pose proof (first_segment_startswith "-" "BoxUsage:" rest eq_refl) as Hp.
    destruct (Py.split "-" rest) as [|seg t] eqn:E; [by apply split_nonempty in E|].
    cbn [hd] in Hp. cbn. unfold Py.startswith. rewrite Hp.
    by destruct (String.prefix _ rest).
Qed.

(** [usage_type] raises in two cases only: KeyError when the record has no
    usage-type field, and IndexError when the field is a region code and
    nothing else (four characters that pass the region-code test, no "-"). *)
Theorem usage_type_raises_iff (r : Row) (e : exn) :
  usage_type r = Raise e
  <-> (content r !! "lineItem/UsageType" = None /\ e = KeyError)
      \/ (exists raw,
            content r !! "lineItem/UsageType" = Some raw
            /\ looks_like_region_code raw = true
            /\ Py.any_char (Ascii.eqb "-") raw = false
            /\ e = IndexError).
Proof.
  unfold usage_type, Py.getitem.
  destruct (content r !! "lineItem/UsageType") as [raw|]; cbn [rbind]; split.
  - intros H. right. exists raw. split; [done|].
    destruct (usage_type_of_cases raw) as [(Hrc & Hs & Hr) | [Hr | Hr]];
      rewrite Hr in H; [|done..].
    injection H as <-. by apply split_singleton_no_sep in Hs.
  - intros [[? _] | (raw' & [= <-] & Hrc & Hs & ->)]; [done|].
    unfold usage_type_of. rewrite (split_no_sep _ _ Hs). cbn. by rewrite Hrc.
  - intros [= <-]. by left.
  - intros [[_ ->] | (raw' & ? & _)]; done.
Qed.

Lemma instance_type_of_no_dot raw it :
  instance_type_of raw = Ok (Some it) -> Py.any_char (Ascii.eqb ".") it = false.
Proof.
  rewrite instance_type_of_eq. destruct (Py.contains "BoxUsage:" raw); [|done].
  destruct (Py.cut ":" raw) as [[a b]|]; [|done].
  intros [= <-]. by apply replace_removes.
Qed.

(** For a record with a usage-type field, [instance_type] raises nothing;
    it is None exactly when the field does not contain "BoxUsage:", and a
    string it returns has no "." in it. *)
Theorem instance_type_none_iff (r : Row) (raw : string) :
  content r !! "lineItem/UsageType" = Some raw ->
  (instance_type r = Ok None <-> Py.contains "BoxUsage:" raw = false)
  /\ (forall it, instance_type r = Ok (Some it) ->
        Py.any_char (Ascii.eqb ".") it = false)
  /\ ~ raises (instance_type r).
Proof.
  intros Hraw. unfold instance_type. rewrite (getitem_Some _ _ _ Hraw). cbn [rbind].
  split; [|split].
  - rewrite instance_type_of_eq.
    destruct (Py.contains "BoxUsage:" raw) eqn:Hc; [|done].
    destruct (cut_of_contains _ Hc) as [[a b] ->]. done.
  - apply instance_type_of_no_dot.
  - intros [e He]. rewrite instance_type_of_eq in He.
    destruct (Py.contains "BoxUsage:" raw); [|done].
    by destruct (Py.cut ":" raw) as [[a b]|].
Qed.

(** ** Metric names *)

Lemma count_char_append c a b :
  count_char c (a +:+ b) = (count_char c a + count_char c b)%nat.
Proof.
  induction a as [|c' a IH]; [done|].
  change (String c' a +:+ b) with (String c' (a +:+ b)).
  cbn [count_char]. rewrite IH. lia.
Qed.

Lemma count_char_absent c s :
  Py.any_char (Ascii.eqb c) s = false -> count_char c s = 0%nat.
Proof.
  induction s as [|c' s IH]; cbn [Py.any_char count_char]; [done|].
  rewrite (Ascii.eqb_sym c c'). destruct (Ascii.eqb c' c); [done|].
  intros H. by rewrite (IH H).
Qed.

Lemma region_of_no_dot loc : count_char "." (region_of loc) = 0%nat.
Proof.
  pose proof (region_of_codes loc) as H. unfold region_codes in H.
  repeat (apply elem_of_cons in H as [-> | H]; [reflexivity|]).
  by apply elem_of_nil in H.
Qed.

(** The name [ByInstanceType] gives to a record it matches (one with a
    location field) is the region code, "ec2-instance" and the instance
    type joined by dots, and it has exactly two dots: three path
    components for Graphite, whatever the instance type is. *)
Theorem ByInstanceType_name_three_parts (r : Row) (location : string) :
  ByInstanceType_match r = Ok true ->
  content r !! "product/location" = Some location ->
  exists it,
    instance_type r = Ok (Some it)
    /\ ByInstanceType_metric_name r
       = Ok (region_of location +:+ ".ec2-instance." +:+ it)
    /\ count_char "." (region_of location +:+ ".ec2-instance." +:+ it) = 2%nat.
Proof.
  intros Hut%ByInstanceType_match_iff Hloc.
  destruct (ec2_instance_type_present r Hut) as [it Hit]. exists it.
  split; [done|]. split.
  - unfold ByInstanceType_metric_name, region.
    by rewrite (getitem_Some _ _ _ Hloc), Hut, Hit.
  - rewrite !count_char_append, region_of_no_dot.
    assert (count_char "." it = 0%nat) as ->; [|reflexivity].
    apply count_char_absent. revert Hit. unfold instance_type.
    destruct (Py.getitem (content r) "lineItem/UsageType") as [raw|]; [|done].
    apply instance_type_of_no_dot.
Qed.

(** Called on a record of unknown category (with its location field),
    [ByInstanceType.metric_name] raises TypeError: the join meets the None
    that [usage_type] returned; it never returns a name for such a record. *)
Theorem ByInstanceType_name_needs_match (r : Row) (location : string) :
  usage_type r = Ok None ->
  content r !! "product/location" = Some location ->
  ByInstanceType_match r = Ok false
  /\ ByInstanceType_metric_name r = Raise TypeError.
Proof.
  intros Hut Hloc. split.
  - unfold ByInstanceType_match. by rewrite Hut.
  - unfold ByInstanceType_metric_name, region.
    rewrite (getitem_Some _ _ _ Hloc), Hut. cbn [rbind].
    unfold usage_type, instance_type in *.
    destruct (Py.getitem (content r) "lineItem/UsageType") as [raw|]; [|done].
    cbn [rbind]. rewrite instance_type_of_eq.
    destruct (Py.contains "BoxUsage:" raw); [|done].
    by destruct (Py.cut ":" raw) as [[a b]|].
Qed.

(** ** The ledger *)

Lemma entries_same_row pats row es :
  entries pats row = Ok es ->
  Forall (fun e => end_time row = Ok e.1.2 /\ amount row = Ok e.2) es.
Proof.
  revert es. induction pats as [|pat pats IH]; intros es; cbn [entries].
  - intros [= <-]. constructor.
  - destruct (pat_match pat row) as [[]|]; cbn [rbind]; [|by apply IH|done].
    destruct (pat_metric_name pat row) as [ts_id|]; cbn [rbind]; [|done].
    destruct (end_time row) as [t|]; cbn [rbind]; [|done].
    destruct (amount row) as [a|]; cbn [rbind]; [|done].
    destruct (entries pats row) as [es'|]; cbn [rbind]; [|done].
    intros [= <-]. constructor; [done|]. by apply IH.
Qed.

Lemma contributions_other_time es ts_id t :
  Forall (fun e : string * Z * float => e.1.2 <> t) es -> contributions es ts_id t = [].
Proof.
  intros H. unfold contributions. rewrite filter_none; [done|].
  intros [[n u] a] Hin [= _ ->].
  by apply (proj1 (Forall_forall _ _) H _ Hin).
Qed.

(** [MetricLedger.process] keeps the patterns, never removes a point,
    and changes no accumulator at a timestamp other than the end time of
    the record. *)
Theorem process_keeps_other_points (l l' : MetricLedger) (row : Row) :
  MetricLedger_process l row = Ok l' ->
  _patterns l' = _patterns l
  /\ (forall ts_id t,
        is_Some (accumulator (_timeseries l) ts_id t) ->
        is_Some (accumulator (_timeseries l') ts_id t))
  /\ (forall ts_id t,
        end_time row <> Ok t ->
        accumulator (_timeseries l') ts_id t = accumulator (_timeseries l) ts_id t).
Proof.
  unfold MetricLedger_process. rewrite process_patterns_entries.
  destruct (entries (_patterns l) row) as [es|] eqn:Hes; cbn [rbind]; [|done].
  intros [= <-]. cbn [_patterns _timeseries]. split; [done|]. split.
  - intros ts_id t Hsome. rewrite accumulator_foldl.
    by destruct (contributions es ts_id t).
  - intros ts_id t Ht. rewrite accumulator_foldl.
    rewrite contributions_other_time; [done|].
    eapply Forall_impl; [exact (entries_same_row _ _ _ Hes)|].
    intros e [He _] Heq. cbn beta in Heq. rewrite Heq in He. done.
Qed.

Lemma contributions_app es1 es2 ts_id t :
  contributions (es1 ++ es2) ts_id t
  = (contributions es1 ts_id t ++ contributions es2 ts_id t)%list.
Proof. unfold contributions. by rewrite filter_app, fmap_app. Qed.

Lemma contributions_nonempty_iff es ts_id t :
  contributions es ts_id t <> [] <-> (ts_id, t) ∈ es.*1.
Proof.
  unfold contributions. induction es as [|[k a] es IH]; cbn [fmap list_fmap fst].
  - rewrite filter_nil. split; [done|]. by intros ?%elem_of_nil.
  - rewrite filter_cons, elem_of_cons. cbn [fst].
    destruct (decide (k = (ts_id, t))) as [->|Hne].
    + split; [by left | done].
    + rewrite IH. split; [by right|]. by intros [?|?].
Qed.

Lemma ByInstanceType_name_not_total r name :
  ByInstanceType_match r = Ok true ->
  ByInstanceType_metric_name r = Ok name ->
  name <> "all-regions.all-types.total-cost".
Proof.
  intros Hut%ByInstanceType_match_iff. unfold ByInstanceType_metric_name, region.
  destruct (Py.getitem (content r) "product/location") as [loc|]; [|done].
  rewrite Hut. cbn [rbind].
  destruct (instance_type r) as [[it|]|]; cbn; [|done..].
  intros [= <-]. apply ec2_name_not_total.
Qed.

Lemma standard_entries_total row es t :
  entries [ByInstanceType; AllCosts] row = Ok es ->
  contributions es "all-regions.all-types.total-cost" t
  = match amount_at t row with Some a => [a] | None => [] end.
Proof.
  unfold amount_at. cbn [entries ByInstanceType AllCosts pat_match pat_metric_name rbind].
  destruct (ByInstanceType_match row) as [[]|] eqn:Hm; cbn [rbind]; [| |done].
  - destruct (ByInstanceType_metric_name row) as [name|] eqn:Hn; cbn [rbind]; [|done].
    pose proof (ByInstanceType_name_not_total _ _ Hm Hn) as Hne.
    destruct (end_time row) as [t'|]; cbn [rbind]; [|done].
    destruct (amount row) as [a|]; cbn [rbind]; [|done].
    intros [= <-]. unfold contributions. rewrite !filter_cons, filter_nil. cbn [fst].
    rewrite decide_False by congruence.
    destruct (decide (t' = t)) as [->|Ht].
    + by rewrite decide_True.
    + by rewrite decide_False by congruence.
  - destruct (end_time row) as [t'|]; cbn [rbind]; [|done].
    destruct (amount row) as [a|]; cbn [rbind]; [|done].
    intros [= <-]. unfold contributions. rewrite !filter_cons, filter_nil. cbn [fst].
    destruct (decide (t' = t)) as [->|Ht].
    + by rewrite decide_True.
    + by rewrite decide_False by congruence.
Qed.

Lemma standard_all_entries_total rows es t :
  all_entries [ByInstanceType; AllCosts] rows = Ok es ->
  contributions es "all-regions.all-types.total-cost" t = omap (amount_at t) rows.
Proof.
  unfold all_entries. revert es. induction rows as [|row rows IH]; intros es.
  - by intros [= <-].
  - cbn [map_r].
    destruct (entries [ByInstanceType; AllCosts] row) as [e1|] eqn:He1;
      cbn [rbind]; [|done].
    destruct (map_r (entries [ByInstanceType; AllCosts]) rows) as [ess|];
      cbn [rbind]; [|done].
    intros [= <-]. cbn [concat]. rewrite contributions_app.
    rewrite (standard_entries_total _ _ t He1), (IH (concat ess) eq_refl).
    csimpl. by destruct (amount_at t row).
Qed.

(** With the two patterns of the program, after a sequence of records is
    processed from an empty table, the point
    "all-regions.all-types.total-cost" at a timestamp is the sum (from 0.0,
    in processing order) of the amounts of all processed records that end
    at that timestamp, and there is no such point when none does: the
    per-instance-type names never collide with it. *)
Theorem total_cost_is_sum (l' : MetricLedger) (rows : list Row) (t : Arrow) :
  process_all (MetricLedger_init [ByInstanceType; AllCosts]) rows = Ok l' ->
  accumulator (_timeseries l') "all-regions.all-types.total-cost" t
  = match omap (amount_at t) rows with
    | [] => None
    | cs => Some (fsum cs)
    end.
Proof.
  rewrite process_all_entries. cbn [MetricLedger_init _patterns _timeseries].
  destruct (all_entries [ByInstanceType; AllCosts] rows) as [es|] eqn:Hes;
    cbn [rbind]; [|done].
  intros [= <-]. cbn [_timeseries].
  rewrite accumulator_foldl, accumulator_empty.
  by rewrite (standard_all_entries_total _ _ t Hes).
Qed.

(** The table has as many points as the processed records have distinct
    (metric name, end time) pairs, however many records there are. *)
Theorem points_count (l l' : MetricLedger) (rows : list Row)
    (es : list (string * Z * float)) :
  _timeseries l = ∅ ->
  all_entries (_patterns l) rows = Ok es ->
  process_all l rows = Ok l' ->
  length (points (_timeseries l')) = length (remove_dups es.*1).
Proof.
  intros Hempty Hes. rewrite process_all_entries, Hes. cbn [rbind].
  intros [= <-]. cbn [_timeseries]. rewrite Hempty.
  rewrite <- (length_fmap fst (points _)). apply Permutation_length.
  apply NoDup_Permutation; [apply NoDup_points_keys | apply NoDup_remove_dups |].
  intros [ts_id t].
  rewrite elem_of_remove_dups, <- (contributions_nonempty_iff es).
  rewrite list_elem_of_fmap. split.
  - intros ([[n u] v] & Heq & Hin%elem_of_points). cbn in Heq.
    injection Heq as <- <-.
    rewrite accumulator_foldl, accumulator_empty in Hin.
    by destruct (contributions es ts_id t).
  - intros Hc. pose proof (accumulator_foldl es ∅ ts_id t) as Hacc.
    rewrite accumulator_empty in Hacc.
    destruct (contributions es ts_id t) as [|c cs]; [done|].
    eexists (ts_id, t, _). split; [done|]. by apply elem_of_points.
Qed.

(** ** The driver, again *)

(** Over a report whose rows can all be read by the filter, the loop of
    [generate_metrics] is [MetricLedger.process] applied in order to the
    rows that are "Usage" rows of 3600 seconds, and to no other row. *)
Theorem generate_metrics_loop_filter (col_names : list string)
    (rows : list (list string)) (ledger : MetricLedger) :
  Forall (fun row_list => readable (Row_init col_names row_list)) rows ->
  generate_metrics_loop col_names rows ledger
  = process_all ledger (filter (fun row => kept row = true) (Row_init col_names <$> rows)).
Proof.
  intros Hrows. revert ledger.
  induction Hrows as [|row_list rows (lit & Hlit & Hint) _ IH]; intros ledger; [done|].
  cbn [generate_metrics_loop fmap list_fmap].
  assert (kept (Row_init col_names row_list)
          = String.eqb lit "Usage"
            && match interval (Row_init col_names row_list) with
               | Ok i => i =? 3600
               | Raise _ => false
               end) as Hk.
  { unfold kept. rewrite (getitem_Some _ _ _ Hlit).
    destruct (interval _); [done|]. by rewrite andb_false_r. }
  rewrite (getitem_Some _ _ _ Hlit). cbn [rbind].
  destruct (String.eqb_spec lit "Usage") as [->|Hne]; cbn [negb andb] in Hk |- *.
  - destruct (Hint eq_refl) as [i Hi]. rewrite Hi in Hk |- *. cbn [rbind].
    destruct (Z.eqb_spec i 3600) as [Heq|Hn]; cbn [negb].
    + rewrite filter_cons_True by done. cbn [process_all].
      destruct (MetricLedger_process ledger _); cbn [rbind]; [apply IH | done].
    + rewrite filter_cons_False by congruence. apply IH.
  - rewrite filter_cons_False by congruence. apply IH.
Qed.

(** A report in which every data row is passed over (and so also a report
    that is only a header) gives no line and no error, in every
    environment, even one where AWSBILL_METRIC_PREFIX is not set; a file
    with no header row raises StopIteration. *)
Theorem nothing_kept_nothing_written (environ : gmap string string)
    (col_names : list string) (rows : list (list string)) :
  Forall (skipped col_names) rows ->
  generate_metrics environ (col_names :: rows) = Ok []
  /\ generate_metrics_writes environ (col_names :: rows) = ([], None)
  /\ generate_metrics environ [] = Raise StopIteration.
Proof.
  intros Hrows.
  assert (forall ledger, generate_metrics_loop col_names rows ledger = Ok ledger) as Hloop.
  { induction Hrows as [|row_list rows Hs _ IH]; intros ledger; [done|].
    by rewrite skipped_step. }
  unfold generate_metrics_writes, generate_metrics, generate_ledger.
  rewrite Hloop. cbn [rbind].
  unfold MetricLedger_output_writes, MetricLedger_output, points.
  cbn [MetricLedger_init _timeseries]. by rewrite map_to_list_empty.
Qed.

(** The first row that raises ends the run with its exception: the rows
    after it are not looked at, and nothing is written. *)
Theorem first_failure_aborts (environ : gmap string string)
    (col_names : list string) (before after : list (list string))
    (bad : list string) (ledger : MetricLedger) (e : exn) :
  generate_metrics_loop col_names before (MetricLedger_init [ByInstanceType; AllCosts])
  = Ok ledger ->
  generate_metrics_loop col_names [bad] ledger = Raise e ->
  generate_metrics environ (col_names :: before ++ bad :: after) = Raise e
  /\ generate_metrics_writes environ (col_names :: before ++ bad :: after)
     = ([], Some e).
Proof.
  intros Hbefore Hbad.
  assert (generate_ledger (col_names :: before ++ bad :: after) = Raise e) as Hrun.
  { unfold generate_ledger.
    rewrite generate_metrics_loop_app, Hbefore. cbn [rbind].
    change (bad :: after) with ([bad] ++ after)%list.
    by rewrite generate_metrics_loop_app, Hbad. }
  unfold generate_metrics, generate_metrics_writes. by rewrite Hrun.
Qed.

(** ** Writing the lines *)

Lemma write_each_map_r {A} (f : A -> result string) (l : list A) (lines : list string) :
  write_each f l = (lines, None) <-> map_r f l = Ok lines.
Proof.
  revert lines. induction l as [|x l IH]; intros lines; cbn [write_each map_r].
  - split; intros [= <-]; done.
  - destruct (f x) as [line|e]; cbn [rbind]; [|done].
    destruct (write_each f l) as [written [e|]].
    + split; [done|]. destruct (map_r f l) as [ys|]; cbn [rbind]; [|done].
      intros _. pose proof (proj2 (IH ys) eq_refl) as Hc. discriminate Hc.
    + rewrite (proj1 (IH written) eq_refl). cbn [rbind].
      split; intros [= <-]; done.
Qed.

Lemma write_each_all_raise {A} (f : A -> result string) (l : list A) e :
  (forall x, f x = Raise e) -> l <> [] -> write_each f l = ([], Some e).
Proof. intros Hf Hl. destruct l as [|x l]; [done|]. cbn. by rewrite Hf. Qed.

Lemma write_each_split {A} (f : A -> result string) (l : list A)
    (written : list string) (exc : option exn) :
  write_each f l = (written, exc) ->
  exists done rest,
    l = (done ++ rest)%list
    /\ Forall2 (fun x line => f x = Ok line) done written
    /\ match exc with
       | None => rest = []
       | Some e => exists x rest', rest = x :: rest' /\ f x = Raise e
       end.
Proof.
  revert written. induction l as [|x l IH]; intros written; cbn [write_each].
  - intros [= <- <-]. exists [], []. split; [done|]. split; [constructor | done].
  - destruct (f x) as [line|e] eqn:Hx.
    + destruct (write_each f l) as [written' exc'].
      intros [= <- <-]. destruct (IH written' eq_refl) as (done & rest & -> & Hd & Hr).
      exists (x :: done), rest. split; [done|]. split; [by constructor | done].
    + intros [= <- <-]. exists [], (x :: l). split; [done|].
      split; [constructor|]. by exists x, l.
Qed.

Lemma write_each_raise_map_r {A} (f : A -> result string) (l : list A)
    (written : list string) e :
  write_each f l = (written, Some e) -> map_r f l = Raise e.
Proof.
  revert written. induction l as [|x l IH]; intros written; cbn [write_each map_r];
    [done|].
  destruct (f x) as [line|e']; cbn [rbind]; [|by intros [= _ ->]].
  destruct (write_each f l) as [written' exc']. intros [= _ ->].
  by rewrite (IH written' eq_refl).
Qed.

Lemma output_writes_unset environ l :
  environ !! "AWSBILL_METRIC_PREFIX" = None ->
  MetricLedger_output_writes environ l
  = if decide (points (_timeseries l) = []) then ([], None) else ([], Some TypeError).
Proof.
  intros Henv. unfold MetricLedger_output_writes. case_decide as Hpts.
  - by rewrite Hpts.
  - apply write_each_all_raise; [|done].
    intros q. unfold MetricFormatter_format.
    by rewrite (MetricFormatter_init_unset _ Henv).
Qed.

(** With the prefix variable set, the lines written are those of the first
    points of the table, and an exception is the one [strftime] raised for
    the next point. *)
Lemma output_writes_set environ l prefix written exc :
  environ !! "AWSBILL_METRIC_PREFIX" = Some prefix ->
  MetricLedger_output_writes environ l = (written, exc) ->
  exists done rest,
    points (_timeseries l) = (done ++ rest)%list
    /\ Forall2 (written_as prefix) done written
    /\ match exc with
       | None => rest = []
       | Some e => exists p rest', rest = p :: rest' /\ strftime_s p.1.1 p.1.2 = Raise e
       end.
Proof.
  intros Henv Hw. unfold MetricLedger_output_writes in Hw.
  apply write_each_split in Hw as (done & rest & Hpts & Hd & Hr).
  exists done, rest. split; [done|]. split.
  - eapply Forall2_impl; [exact Hd|]. intros p line Hp. cbn beta in Hp.
    rewrite (format_point _ _ _ Henv) in Hp.
    destruct (strftime_s p.1.1 p.1.2) as [stamp|] eqn:Hs; [|done].
    injection Hp as <-. by exists stamp.
  - destruct exc as [e|]; [|done]. destruct Hr as (p & rest' & -> & Hp).
    exists p, rest'. split; [done|]. rewrite (format_point _ _ _ Henv) in Hp.
    by destruct (strftime_s p.1.1 p.1.2).
Qed.

(** What [MetricLedger.output] has written when it ends. Without
    AWSBILL_METRIC_PREFIX it writes nothing, and raises TypeError when the
    table has a point. With the variable set it writes the lines of the
    points in the order of the table, each made with the text [strftime]
    returns for the timestamp, up to the first point for which [strftime]
    raises: it then raises the same, the lines before that point having
    been written. Without an exception there is one line per point. *)
Theorem output_writes_until_raise (environ : gmap string string) (l : MetricLedger)
    (written : list string) (exc : option exn) :
  MetricLedger_output_writes environ l = (written, exc) ->
  (environ !! "AWSBILL_METRIC_PREFIX" = None ->
     written = []
     /\ exc = if decide (points (_timeseries l) = []) then None else Some TypeError)
  /\ (forall prefix,
       environ !! "AWSBILL_METRIC_PREFIX" = Some prefix ->
       exists done rest,
         points (_timeseries l) = (done ++ rest)%list
         /\ Forall2 (written_as prefix) done written
         /\ match exc with
            | None => rest = []
            | Some e => exists p rest', rest = p :: rest' /\ strftime_s p.1.1 p.1.2 = Raise e
            end)
  /\ MetricLedger_output environ l
     = match exc with None => Ok written | Some e => Raise e end
  /\ (exc = None -> length written = length (points (_timeseries l))).
Proof.
  intros Hw. split; [|split; [|split]].
  - intros Henv. rewrite (output_writes_unset _ _ Henv) in Hw.
    case_decide; by injection Hw as <- <-.
  - intros prefix Henv. by apply (output_writes_set _ _ _ _ _ Henv).
  - unfold MetricLedger_output. destruct exc as [e|].
    + by apply write_each_raise_map_r in Hw.
    + by apply write_each_map_r.
  - intros ->. apply write_each_map_r in Hw. revert written Hw.
    unfold MetricLedger_output_writes.
    induction (points (_timeseries l)) as [|p ps IH]; intros written; cbn [map_r].
    + by intros [= <-].
    + destruct (MetricFormatter_format _ _ _ _); cbn [rbind]; [|done].
      destruct (map_r _ ps) as [ys|]; cbn [rbind]; [|done].
      intros [= <-]. cbn [length]. by rewrite (IH ys).
Qed.

(** ** The script *)

(** Lines are left behind by a failing run only when [strftime] raised,
    with the prefix variable set. *)
Lemma generate_metrics_writes_raise environ csv_file written e :
  generate_metrics_writes environ csv_file = (written, Some e) ->
  written = []
  \/ (is_Some (environ !! "AWSBILL_METRIC_PREFIX")
      /\ exists ts_id t, strftime_s ts_id t = Raise e).
Proof.
  unfold generate_metrics_writes. destruct (generate_ledger csv_file) as [ledger|e'].
  - intros Hw. destruct (environ !! "AWSBILL_METRIC_PREFIX") as [prefix|] eqn:Henv.
    + right. split; [by eexists|].
      destruct (output_writes_set _ _ _ _ _ Henv Hw) as (done & rest & _ & _ & Hr).
      destruct Hr as (p & rest' & _ & Hp). by exists p.1.1, p.1.2.
    + left. rewrite (output_writes_unset _ _ Henv) in Hw.
      case_decide; by injection Hw as <-.
  - intros [= <- _]. by left.
Qed.

Lemma generate_metrics_writes_ok environ csv_file lines :
  generate_metrics_writes environ csv_file = (lines, None)
  <-> generate_metrics environ csv_file = Ok lines.
Proof.
  unfold generate_metrics_writes, generate_metrics.
  destruct (generate_ledger csv_file) as [ledger|e']; cbn [rbind]; [|done].
  apply write_each_map_r.
Qed.

(** A run prints metric lines only, and exits with status 0; or one error
    report and no metric line, and exits with status 1; or, only when
    [strftime] raises for a timestamp with the prefix variable set, the
    lines written before it, then one error report, and exits with
    status 1. *)
Theorem main_lines_then_error (environ : gmap string string)
    (files : string -> option (list (list string))) :
  (exists lines, main environ files = (MetricLine <$> lines, 0))
  \/ (exists e, main environ files = ([ErrorReport e], 1))
  \/ (exists written e ts_id t,
        written <> []
        /\ is_Some (environ !! "AWSBILL_METRIC_PREFIX")
        /\ strftime_s ts_id t = Raise e
        /\ main environ files
           = ((MetricLine <$> written) ++ [ErrorReport (ProgramError e)], 1)%list).
Proof.
  unfold main. destruct (open_csv environ files) as [csv_file|e]; [|right; left; eauto].
  destruct (open_output environ) as [[]|e]; [|right; left; eauto].
  destruct (generate_metrics_writes environ csv_file) as [written [e|]] eqn:Hw.
  - destruct written as [|line written].
    + right. left. eauto.
    + apply generate_metrics_writes_raise in Hw as [? | [Hp (ts_id & t & Ht)]]; [done|].
      right. right. by exists (line :: written), e, ts_id, t.
  - left. eauto.
Qed.

(** A run exits with status 0 exactly when the report path is a
    "file://" path that can be opened, the output is "stdout" and
    [generate_metrics] ends without an exception; what it prints is then
    the lines of [generate_metrics]. *)
Theorem main_exit_zero_iff (environ : gmap string string)
    (files : string -> option (list (list string))) (out : list printed) :
  main environ files = (out, 0)
  <-> exists rest csv_file lines,
        environ !! "AWSBILL_REPORT_PATH" = Some ("file://" +:+ rest)
        /\ files ("/" +:+ rest) = Some csv_file
        /\ environ !! "AWSBILL_GRAPHITE_URL" = Some "stdout"
        /\ generate_metrics environ csv_file = Ok lines
        /\ out = MetricLine <$> lines.
Proof.
  unfold main, open_csv, open_output, getenv. split.
  - destruct (environ !! "AWSBILL_REPORT_PATH") as [report_path|]; [|done].
    destruct (Py.startswith report_path "file://") eqn:Hf;
      [|by destruct (Py.startswith report_path "s3://")].
    apply startswith_iff in Hf as [rest ->]. rewrite str_from_scheme.
    destruct (files _) as [csv_file|] eqn:Hfile; [|done].
    destruct (environ !! "AWSBILL_GRAPHITE_URL") as [url|]; [|done].
    destruct (String.eqb_spec url "stdout") as [->|_];
      [|by destruct (_ || _)].
    destruct (generate_metrics_writes environ csv_file) as [written [e|]] eqn:Hw;
      [done|].
    intros [= <-]. exists rest, csv_file, written.
    by apply generate_metrics_writes_ok in Hw.
  - intros (rest & csv_file & lines & -> & Hfile & -> & Hrun & ->).
    rewrite (proj2 (startswith_iff _ _)) by by exists rest.
    rewrite str_from_scheme, Hfile. cbn [String.eqb Ascii.eqb Bool.eqb].
    by apply generate_metrics_writes_ok in Hrun as ->.
Qed.

(** Without an output that is exactly "stdout" a run prints no metric
    line and exits with status 1, whatever the report holds. *)
Theorem main_needs_stdout (environ : gmap string string)
    (files : string -> option (list (list string))) :
  environ !! "AWSBILL_GRAPHITE_URL" <> Some "stdout" ->
  exists e, main environ files = ([ErrorReport e], 1).
Proof.
  intros Hurl. unfold main.
  destruct (open_csv environ files) as [csv_file|e]; [|eauto].
  unfold open_output, getenv.
  destruct (environ !! "AWSBILL_GRAPHITE_URL") as [url|]; [|eauto].
  destruct (String.eqb_spec url "stdout") as [->|_]; [done|].
  destruct (_ || _); eauto.
Qed.

End Program.

(** ** Worked examples *)



Lemma C2_witness :
  MetricFormatter_format strftime_utc (MetricFormatter_init ∅)
    "all-regions.all-types.total-cost" 1451610000000000 float_2_0
  = Raise TypeError.
Proof. apply (C2_unset_prefix_raises strftime_utc). reflexivity. Defined.

Lemma C4_witness :
  content (Row_init ["lineItem/LineItemType"; "identity/TimeInterval"] ["Tax"])
    !! "identity/TimeInterval" = None.
Proof.
  apply (C4_row_pairs_by_position
           ["lineItem/LineItemType"; "identity/TimeInterval"] ["Tax"] 1
           "identity/TimeInterval").
  - apply NoDup_cons. split; [|apply NoDup_singleton].
    rewrite list_elem_of_singleton. discriminate.
  - reflexivity.
Defined.

Lemma C8_witness :
  region (Row_init ["product/location"] ["US East (N. Virginia)"]) = Ok "us-east-1"
  /\ region (Row_init ["product/location"] ["Mars (Olympus Mons)"]) = Ok "noregion".
Proof.
  split.
  - destruct (C8_region_or_noregion
                (Row_init ["product/location"] ["US East (N. Virginia)"])
                "US East (N. Virginia)") as (H & _).
    + vm_compute. reflexivity.
    + apply H. vm_compute. reflexivity.
  - destruct (C8_region_or_noregion
                (Row_init ["product/location"] ["Mars (Olympus Mons)"])
                "Mars (Olympus Mons)") as (_ & H & _).
    + vm_compute. reflexivity.
    + apply H. vm_compute. reflexivity.
Defined.

Lemma C10_witness :
  exists it, instance_type (Row_init ["lineItem/UsageType"] ["APN1-BoxUsage:"]) = Ok (Some it).
Proof.
  destruct (C10_ec2_instance_has_instance_type
              (Row_init ["lineItem/UsageType"] ["APN1-BoxUsage:"]))
    as (_ & _ & raw & a & b & _ & _ & H & _).
  - left. vm_compute. reflexivity.
  - eexists. exact H.
Defined.

(** C4 as worded fails: two names and one value build a record (of the
    one pair), and a run over such a row ends without error. *)
Lemma C4_counterexample :
  length ["lineItem/LineItemType"; "identity/TimeInterval"] <> length ["Tax"]
  /\ content (Row_init ["lineItem/LineItemType"; "identity/TimeInterval"] ["Tax"])
     = {[ "lineItem/LineItemType" := "Tax" ]}
  /\ generate_metrics float_of_decimal arrow_get_iso strftime_utc ∅
       [["lineItem/LineItemType"; "identity/TimeInterval"]; ["Tax"]] = Ok [].
Proof.
  split; [cbn; lia|]. split; vm_compute; reflexivity.
Qed.

(** C5 as worded fails: the usage type "EU-BoxUsage:m1.small" of an
    hourly "Usage" row contains "BoxUsage:m1.small", but its first segment
    "EU" is not dropped as a region code and does not begin with
    "BoxUsage:"; the run builds the total-cost point only. *)
Lemma C5_counterexample :
  let row := Row_init example_header example_eu_row in
  content row !! "lineItem/LineItemType" = Some "Usage"
  /\ content row !! "lineItem/UsageType" = Some "EU-BoxUsage:m1.small"
  /\ Py.contains "BoxUsage:m1.small" "EU-BoxUsage:m1.small" = true
  /\ interval arrow_get_iso row = Ok 3600
  /\ tags row = ∅
  /\ usage_type row = Ok None
  /\ exists ledger,
       generate_ledger float_of_decimal arrow_get_iso [example_header; example_eu_row]
       = Ok ledger
       /\ points (_timeseries ledger)
          = [("all-regions.all-types.total-cost", example_end, float_0_85)].
Proof.
  repeat split; try (vm_compute; reflexivity).
  eexists. split; vm_compute; reflexivity.
Qed.

Lemma C5_witness :
  exists t it ledger,
    end_time arrow_get_iso (Row_init example_header example_ec2_row) = Ok t
    /\ instance_type (Row_init example_header example_ec2_row) = Ok (Some it)
    /\ generate_ledger float_of_decimal arrow_get_iso [example_header; example_ec2_row]
       = Ok ledger
    /\ points (_timeseries ledger)
       ≡ₚ [ (region_of "US West (Oregon)" +:+ ".ec2-instance." +:+ it, t,
             fadd fzero float_0_85);
            ("all-regions.all-types.total-cost", t, fadd fzero float_0_85) ].
Proof.
  destruct (C5_one_row_two_points float_of_decimal arrow_get_iso strftime_utc
              example_header example_ec2_row "US West (Oregon)" float_0_85)
    as (t & it & ledger & Ht & Hit & Hrun & Hpoints & _);
    try (vm_compute; reflexivity).
  exists t, it, ledger. repeat split; assumption.
Defined.

Lemma C6_witness :
  exists l',
    process_all float_of_decimal arrow_get_iso
      (MetricLedger_init [ByInstanceType; AllCosts]) example_two_rows = Ok l'
    /\ filter (fun p => p.1 = ("us-west-2.ec2-instance.c3-2xlarge", example_end))
         (points (_timeseries l'))
       = [("us-west-2.ec2-instance.c3-2xlarge", example_end, float_2_0)].
Proof.
  destruct (C6_one_accumulator_per_pair float_of_decimal arrow_get_iso strftime_utc
              (MetricLedger_init [ByInstanceType; AllCosts]) example_two_rows
              [ ("us-west-2.ec2-instance.c3-2xlarge", example_end, float_1_25);
                ("all-regions.all-types.total-cost", example_end, float_1_25);
                ("us-west-2.ec2-instance.c3-2xlarge", example_end, float_0_75);
                ("all-regions.all-types.total-cost", example_end, float_0_75) ])
    as (l' & Hrun & _ & _ & Htwo & _).
  - reflexivity.
  - vm_compute. reflexivity.
  - exists l'. split; [exact Hrun|].
    rewrite (Htwo _ _ float_1_25 float_0_75); vm_compute; reflexivity.
Defined.

(** C9 as worded fails: the time interval of this "Usage" row is 3600.5
    seconds, not exactly 3600 seconds, but [interval()] is 3600: the row is
    not passed over, and it contributes to two metrics. *)
Lemma C9_counterexample :
  let row := Row_init example_header example_half_second_row in
  content row !! "lineItem/LineItemType" = Some "Usage"
  /\ content row !! "identity/TimeInterval"
     = Some "2016-01-01T00:00:00Z/2016-01-01T01:00:00.500000Z"
  /\ arrow_get_fraction "2016-01-01T00:00:00Z" = Some 1451606400000000
  /\ arrow_get_fraction "2016-01-01T01:00:00.500000Z" = Some 1451610000500000
  /\ 1451610000500000 - 1451606400000000 = 3600 * 1000000 + 500000
  /\ interval arrow_get_fraction row = Ok 3600
  /\ (exists ledger,
        generate_ledger float_of_decimal arrow_get_fraction
          [example_header; example_half_second_row] = Ok ledger
        /\ points (_timeseries ledger)
           = [ ("us-west-2.ec2-instance.c3-2xlarge", 1451610000500000, float_0_85);
               ("all-regions.all-types.total-cost", 1451610000500000, float_0_85) ])
  /\ (exists ledger,
        generate_ledger float_of_decimal arrow_get_fraction [example_header] = Ok ledger
        /\ points (_timeseries ledger) = []).
Proof.
  repeat split; try (vm_compute; reflexivity);
    eexists; split; vm_compute; reflexivity.
Qed.


(** The end-to-end scenario: one hourly BoxUsage row for c3.2xlarge in
    Oregon costing 0.850000 and one row that is not "Usage" give two lines,
    both of value 0.850000 at the end time of the row. *)
Example end_to_end :
  exists lines,
    generate_metrics float_of_decimal arrow_get_iso strftime_utc {[ "AWSBILL_METRIC_PREFIX" := "" ]}
      [example_header; example_ec2_row; example_tax_row] = Ok lines
    /\ lines ≡ₚ [ "us-west-2.ec2-instance.c3-2xlarge 0.850000 1451610000" +:+ newline;
                  "all-regions.all-types.total-cost 0.850000 1451610000" +:+ newline ].
Proof. eexists. split; [vm_compute; reflexivity | reflexivity]. Qed.

(** The same report when AWSBILL_METRIC_PREFIX is not set: the first line
    to format raises TypeError. *)
Example end_to_end_unset_prefix :
  generate_metrics float_of_decimal arrow_get_iso strftime_utc ∅
    [example_header; example_ec2_row; example_tax_row]
  = Raise TypeError.
Proof. vm_compute. reflexivity. Qed.

(** The sum of the example amounts. *)
Example sum_example :
  fsum [float_1_25; float_0_75] = float_2_0
  /\ float_of_decimal "1.2500" = Some float_1_25
  /\ float_of_decimal "0.7500" = Some float_0_75
  /\ line_text "" ("us-west-2.ec2-instance.c3-2xlarge", example_end, float_2_0)
       "1451610000"
     = "us-west-2.ec2-instance.c3-2xlarge 2.000000 1451610000" +:+ newline.
Proof. repeat split; vm_compute; reflexivity. Qed.

(** ** Worked examples for the further properties *)

Lemma open_csv_failure_witness :
  exists rest,
    ({[ "AWSBILL_REPORT_PATH" := "s3://bucket/latest.csv" ]} : gmap string string)
      !! "AWSBILL_REPORT_PATH" = Some ("s3://" +:+ rest).
Proof.
  destruct (open_csv_failure {[ "AWSBILL_REPORT_PATH" := "s3://bucket/latest.csv" ]}
              example_files (SetupError NotImplementedError))
    as [[H _] | [[H _] | [[_ H] | [H _]]]]; try discriminate H.
  - reflexivity.
  - exact H.
Defined.

Lemma end_time_ok_iff_witness :
  end_time arrow_get_iso (Row_init ["identity/TimeInterval"] ["2016-01-01T01:00:00Z"])
  = Raise IndexError
  /\ interval arrow_get_iso (Row_init ["identity/TimeInterval"] ["2016-01-01T01:00:00Z"])
     = Raise ValueError.
Proof.
  destruct (end_time_ok_iff arrow_get_iso
              (Row_init ["identity/TimeInterval"] ["2016-01-01T01:00:00Z"])
              "2016-01-01T01:00:00Z") as [_ H].
  - reflexivity.
  - destruct H as [H1 H2]; [reflexivity|]. split; [exact H1|].
    rewrite H2. vm_compute. reflexivity.
Defined.

Lemma instance_type_none_iff_witness :
  Py.any_char (Ascii.eqb ".") "m1-small" = false
  /\ ~ raises (instance_type (Row_init example_header example_eu_row)).
Proof.
  destruct (instance_type_none_iff (Row_init example_header example_eu_row)
              "EU-BoxUsage:m1.small") as (_ & H & Hr).
  - vm_compute. reflexivity.
  - split; [|exact Hr]. apply H. vm_compute. reflexivity.
Defined.

Lemma ByInstanceType_name_three_parts_witness :
  ByInstanceType_metric_name (Row_init example_header example_ec2_row)
  = Ok "us-west-2.ec2-instance.c3-2xlarge"
  /\ count_char "." "us-west-2.ec2-instance.c3-2xlarge" = 2%nat.
Proof.
  destruct (ByInstanceType_name_three_parts (Row_init example_header example_ec2_row)
              "US West (Oregon)") as (it & Hit & Hname & Hcount).
  - vm_compute. reflexivity.
  - vm_compute. reflexivity.
  - vm_compute in Hit. injection Hit as <-. split; [|exact Hcount].
    rewrite Hname. vm_compute. reflexivity.
Defined.

Lemma ByInstanceType_name_needs_match_witness :
  ByInstanceType_metric_name (Row_init example_header example_eu_row) = Raise TypeError.
Proof.
  apply (ByInstanceType_name_needs_match (Row_init example_header example_eu_row)
           "EU (Ireland)"); vm_compute; reflexivity.
Defined.

Lemma process_keeps_other_points_witness :
  exists l',
    MetricLedger_process float_of_decimal arrow_get_iso
      (MetricLedger_init [ByInstanceType; AllCosts])
      (Row_init example_header example_ec2_row) = Ok l'
    /\ accumulator (_timeseries l') "all-regions.all-types.total-cost" 0 = None.
Proof.
  destruct (MetricLedger_process float_of_decimal arrow_get_iso
              (MetricLedger_init [ByInstanceType; AllCosts])
              (Row_init example_header example_ec2_row)) as [l'|e] eqn:Hrun;
    [|vm_compute in Hrun; discriminate].
  exists l'. split; [reflexivity|].
  destruct (process_keeps_other_points float_of_decimal arrow_get_iso _ _ _ Hrun)
    as (_ & _ & H).
  rewrite H; [reflexivity|]. vm_compute. discriminate.
Defined.

Lemma total_cost_is_sum_witness :
  exists l',
    process_all float_of_decimal arrow_get_iso
      (MetricLedger_init [ByInstanceType; AllCosts]) example_two_rows = Ok l'
    /\ accumulator (_timeseries l') "all-regions.all-types.total-cost" example_end
       = Some float_2_0.
Proof.
  destruct (process_all float_of_decimal arrow_get_iso
              (MetricLedger_init [ByInstanceType; AllCosts]) example_two_rows)
    as [l'|e] eqn:Hrun; [|vm_compute in Hrun; discriminate].
  exists l'. split; [reflexivity|].
  rewrite (total_cost_is_sum float_of_decimal arrow_get_iso _ _ _ Hrun).
  vm_compute. reflexivity.
Defined.

Lemma points_count_witness :
  exists l',
    process_all float_of_decimal arrow_get_iso
      (MetricLedger_init [ByInstanceType; AllCosts]) example_two_rows = Ok l'
    /\ length (points (_timeseries l')) = 2%nat.
Proof.
  destruct (process_all float_of_decimal arrow_get_iso
              (MetricLedger_init [ByInstanceType; AllCosts]) example_two_rows)
    as [l'|e] eqn:Hrun; [|vm_compute in Hrun; discriminate].
  exists l'. split; [reflexivity|].
  rewrite (points_count float_of_decimal arrow_get_iso
             (MetricLedger_init [ByInstanceType; AllCosts]) l' example_two_rows
             [ ("us-west-2.ec2-instance.c3-2xlarge", example_end, float_1_25);
               ("all-regions.all-types.total-cost", example_end, float_1_25);
               ("us-west-2.ec2-instance.c3-2xlarge", example_end, float_0_75);
               ("all-regions.all-types.total-cost", example_end, float_0_75) ]).
  - vm_compute. reflexivity.
  - reflexivity.
  - vm_compute. reflexivity.
  - exact Hrun.
Defined.

Lemma generate_metrics_loop_filter_witness :
  generate_metrics_loop float_of_decimal arrow_get_iso example_header
    [example_ec2_row; example_tax_row; example_two_hour_row]
    (MetricLedger_init [ByInstanceType; AllCosts])
  = process_all float_of_decimal arrow_get_iso
      (MetricLedger_init [ByInstanceType; AllCosts])
      [Row_init example_header example_ec2_row].
Proof.
  rewrite generate_metrics_loop_filter.
  - vm_compute. reflexivity.
  - repeat constructor.
    + exists "Usage". split; [vm_compute; reflexivity|].
      intros _. exists 3600. vm_compute. reflexivity.
    + exists "Tax". split; [vm_compute; reflexivity | discriminate].
    + exists "Usage". split; [vm_compute; reflexivity|].
      intros _. exists 7200. vm_compute. reflexivity.
Defined.

Lemma nothing_kept_nothing_written_witness :
  generate_metrics float_of_decimal arrow_get_iso strftime_utc ∅
    [example_header; example_tax_row; example_two_hour_row] = Ok [].
Proof.
  refine (proj1 (nothing_kept_nothing_written float_of_decimal arrow_get_iso
                   strftime_utc ∅ example_header
                   [example_tax_row; example_two_hour_row] _)).
  repeat constructor.
  - exists "Tax". split; [vm_compute; reflexivity|]. left. discriminate.
  - exists "Usage". split; [vm_compute; reflexivity|]. right.
    exists 7200. split; [vm_compute; reflexivity | discriminate].
Defined.

Lemma first_failure_aborts_witness :
  generate_metrics float_of_decimal arrow_get_iso strftime_utc example_environ
    [example_header; example_ec2_row; example_short_row; example_ec2_row]
  = Raise KeyError.
Proof.
  destruct (generate_metrics_loop float_of_decimal arrow_get_iso example_header
              [example_ec2_row] (MetricLedger_init [ByInstanceType; AllCosts]))
    as [ledger|e] eqn:Hbefore; [|vm_compute in Hbefore; discriminate].
  refine (proj1 (first_failure_aborts float_of_decimal arrow_get_iso strftime_utc
                   example_environ example_header [example_ec2_row] [example_ec2_row]
                   example_short_row ledger KeyError Hbefore _)).
  vm_compute. reflexivity.
Defined.

Lemma main_needs_stdout_witness :
  exists e,
    main float_of_decimal arrow_get_iso strftime_utc
      (<[ "AWSBILL_GRAPHITE_URL" := "STDOUT" ]> example_environ) example_files
    = ([ErrorReport e], 1).
Proof.
  apply (main_needs_stdout float_of_decimal arrow_get_iso strftime_utc).
  vm_compute. discriminate.
Defined.

Lemma usage_type_of_by_prefix_witness :
  usage_type_of "USE1-USW2-BoxUsage:m1.small" = Ok None
  /\ usage_type_of "USW2-BoxUsage:m1.small" = Ok (Some "ec2-instance").
Proof.
  split.
  - destruct (usage_type_of_by_prefix "USE1-USW2-BoxUsage:m1.small") as [_ H].
    apply (H "USE1" "USW2-BoxUsage:m1.small"); reflexivity.
  - destruct (usage_type_of_by_prefix "USW2-BoxUsage:m1.small") as [_ H].
    apply (H "USW2" "BoxUsage:m1.small"); reflexivity.
Defined.

Lemma open_output_returns_iff_witness :
  open_output {[ "AWSBILL_GRAPHITE_URL" := "https://graphite.example.com/" ]}
  = Throws (SetupError NotImplementedError)
  /\ open_output {[ "AWSBILL_GRAPHITE_URL" := "Stdout" ]}
     = Throws (ProgramError ValueError).
Proof.
  split.
  - destruct (open_output_returns_iff
                {[ "AWSBILL_GRAPHITE_URL" := "https://graphite.example.com/" ]})
      as (_ & _ & H & _).
    apply (H "graphite.example.com/"). right. reflexivity.
  - destruct (open_output_returns_iff {[ "AWSBILL_GRAPHITE_URL" := "Stdout" ]})
      as (_ & _ & _ & H).
    apply (H "Stdout"); [reflexivity | discriminate | reflexivity | reflexivity].
Defined.

(** A whole run: the report is opened at "//reports/latest.csv", and the
    two lines carry the prefix. *)
Example main_example :
  exists lines,
    main float_of_decimal arrow_get_iso strftime_utc example_environ example_files
    = (MetricLine <$> lines, 0)
    /\ lines ≡ₚ [ "aws.us-west-2.ec2-instance.c3-2xlarge 0.850000 1451610000" +:+ newline;
                  "aws.all-regions.all-types.total-cost 0.850000 1451610000" +:+ newline ].
Proof.
  exists [ "aws.us-west-2.ec2-instance.c3-2xlarge 0.850000 1451610000" +:+ newline;
           "aws.all-regions.all-types.total-cost 0.850000 1451610000" +:+ newline ].
  split; [vm_compute; reflexivity | reflexivity].
Qed.


(** ** Worked examples for the library calls *)

(** A value of 1e50 is written with the type 'g'; just below, with six
    digits after the point. *)
Example format_float_large :
  float_of_decimal "100000000000000000000000000000000000000000000000000" = Some float_1e50
  /\ at_least_1e50 float_1e50 = true
  /\ format_float 4 None float_1e50 = "1e+50"
  /\ format_float 4 None (nearest_float false (99999 * 10 ^ 45) 1)
     = "99999000000000001002245833159622099368606506680320.000000".
Proof. repeat split; vm_compute; reflexivity. Qed.

(** [interval] goes through a float: two instants 31556908799.999999
    seconds apart give 31556908800. *)
Example interval_far_apart :
  arrow_get_fraction "1000-01-01T00:00:00.000001Z" = Some (-30610223999999999)
  /\ arrow_get_fraction "2000-01-01T00:00:00Z" = Some 946684800000000
  /\ interval arrow_get_fraction
       (Row_init ["identity/TimeInterval"]
          ["1000-01-01T00:00:00.000001Z/2000-01-01T00:00:00Z"])
     = Ok 31556908800
  /\ Z.quot (946684800000000 - -30610223999999999) 1000000 = 31556908799.
Proof. repeat split; vm_compute; reflexivity. Qed.

(** The table of the second file, and what is written from it when
    [strftime] raises for a timestamp before 1900: the line of the point
    that comes first in the table, then the exception. *)
Lemma output_writes_until_raise_witness :
  MetricLedger_output strftime_utc example_environ example_old_ledger
  = Raise ValueError.
Proof.
  refine (proj1 (proj2 (proj2
    (output_writes_until_raise strftime_utc example_environ example_old_ledger
       [ "aws.us-west-2.ec2-instance.c3-2xlarge 0.850000 1451610000" +:+ newline ]
       (Some ValueError) _)))).
  vm_compute. reflexivity.
Defined.

(** A whole run over the second file: one line is printed, then the error
    report, and the exit status is 1. *)
Example main_partial_output :
  generate_ledger float_of_decimal arrow_get_iso
    [example_header; example_ec2_row; example_1899_row] = Ok example_old_ledger
  /\ strftime_utc "all-regions.all-types.total-cost" example_1899_end = Raise ValueError
  /\ main float_of_decimal arrow_get_iso strftime_utc example_old_environ example_old_files
     = ([ MetricLine ("aws.us-west-2.ec2-instance.c3-2xlarge 0.850000 1451610000"
                      +:+ newline);
          ErrorReport (ProgramError ValueError) ], 1).
Proof. repeat split; vm_compute; reflexivity. Qed.
